(** * package_reloader.py: a shallow embedding of the editor-facing reload
      commands of AutomaticPackageReloader

    The first part follows [package_reloader.py] top to bottom:
    - the Python values and string operations the file relies on;
    - [relative_to_spp], in its Windows and its Linux and macOS definition,
      over a record of what it asks of the platform and the file system;
    - the process state ([World]): the heap of [Lock] objects, the binding of
      the module global [reload_lock], [sys.modules], the settings file, the
      window, the started threads and a chronological log of host effects;
    - statements as state passing with exceptions, with
      [try]/[except Exception]/[finally];
    - the module body, [on_post_save], [current_package_name], [run] and
      [run_async];
    - the properties the specification states, and sample hosts and worlds.

    The second part proves what the specification claims about them.

    [reload_package] and [ProgressBar] live in the sibling module [reloader],
    which is not part of this file: the first is a section variable, the
    second a pair of logged effects.  Calls into the editor API
    ([sublime.status_message], [window.run_command], ...) and [print] are
    recorded in the log and do not raise; [reload_package] is the one call
    whose exceptions are modelled. *)

From Stdlib Require Import Ascii.
From stdpp Require Import gmap strings list fin_maps.

(** ** Python strings *)

Module Py.

(** [s.startswith(pre)] *)
Definition startswith (s pre : string) : bool := String.prefix pre s.

(** [s[n:]] *)
Fixpoint slice_from (n : nat) (s : string) : string :=
  match n, s with
  | O, _ => s
  | S n', String _ s' => slice_from n' s'
  | S _, EmptyString => EmptyString
  end.

(** [s.endswith(suf)] *)
Definition endswith (s suf : string) : bool :=
  (String.length suf <=? String.length s)%nat
  && String.eqb (slice_from (String.length s - String.length suf) s) suf.

(** Truth value of a [str]: non-empty. *)
Definition str_truthy (s : string) : bool :=
  match s with EmptyString => false | String _ _ => true end.

(** [s.split(sep)] for a one-character separator: the pieces between
    occurrences of [sep]; always at least one piece. *)
Fixpoint split_char (sep : ascii) (s : string) : list string :=
  match s with
  | EmptyString => [EmptyString]
  | String c s' =>
      if Ascii.eqb c sep then EmptyString :: split_char sep s'
      else match split_char sep s' with
           | [] => [String c EmptyString]
           | piece :: rest => String c piece :: rest
           end
  end.

(** The values a settings lookup or a command argument can hold. *)
Inductive value : Type :=
| VNone
| VBool (b : bool)
| VInt (n : Z)
| VStr (s : string).

(** Python truthiness, as used by [if x:], [and], [or] and [not]. *)
Definition truthy (v : value) : bool :=
  match v with
  | VNone => false
  | VBool b => b
  | VInt n => negb (n =? 0)%Z
  | VStr s => str_truthy s
  end.

(** Truthiness of an optional string ([None] or a [str]). *)
Definition opt_truthy (o : option string) : bool :=
  match o with None => false | Some s => str_truthy s end.

(** Exceptions.  [NameError], [IndexError] and [RuntimeError] are raised by
    the interpreter on the paths of this file; [Raised] stands for whatever a
    reloaded module's body raises: [is_Exception] tells whether its class
    derives from [Exception] (as opposed to [SystemExit],
    [KeyboardInterrupt] and other bare [BaseException]s) and [obj] is the
    identity of the exception object. *)
Inductive exc : Type :=
| NameError (name : string)
| IndexError
| RuntimeError (msg : string)
| Raised (is_Exception : bool) (obj : nat).

(** [isinstance(e, Exception)], the test made by [except Exception:]. *)
Definition isinstance_Exception (e : exc) : bool :=
  match e with
  | Raised b _ => b
  | _ => true
  end.

End Py.

(** ** [os.path] *)

Module OsPath.

(** [posixpath.join(a, b)], one step of the variadic [join]. *)
Definition join2 (path b : string) : string :=
  if Py.startswith b "/" then b
  else if negb (Py.str_truthy path) || Py.endswith path "/" then path +:+ b
  else path +:+ "/" +:+ b.

(** [posixpath.join(a, *p)] *)
Definition join (a : string) (p : list string) : string :=
  foldl join2 a p.

(** [posixpath.basename(p)]: what follows the last slash. *)
Definition posix_basename (p : string) : string :=
  default "" (last (Py.split_char "/" p)).

(** [os.sep] on Windows, the backslash (character 92), and elsewhere. *)
Definition nt_sep : ascii := ascii_of_nat 92.

Definition posix_sep : ascii := "/"%char.

End OsPath.

(** ** The host: platform and file system

    Everything [relative_to_spp] asks of its environment.  [glob_cased p]
    stands for [glob(re.sub(r'([^:/\\])(?=[/\\]|$)', r'[\1]', p))], the
    file-system lookup that recovers the stored casing of [p]. *)

Record Host : Type := {
  platform_system : string;            (* platform.system() *)
  packages_path : string;              (* sublime.packages_path() *)
  realpath : string -> string;         (* os.path.realpath *)
  glob_cased : string -> list string;
  listdir : string -> list string;     (* os.listdir *)
  islink : string -> bool;             (* os.path.islink *)
  isdir : string -> bool;              (* os.path.isdir *)
  readlink : string -> string;         (* os.readlink *)
  basename : string -> string          (* os.path.basename *)
}.

(** [platform.system() == 'Windows'] *)
Definition is_windows (h : Host) : bool :=
  String.eqb (platform_system h) "Windows".

(** [os.sep] *)
Definition os_sep (h : Host) : ascii :=
  if is_windows h then OsPath.nt_sep else OsPath.posix_sep.

(** The first iteration of a [for] loop whose body returns. *)
Fixpoint first_some {A B : Type} (f : A -> option B) (l : list A) : option B :=
  match l with
  | [] => None
  | x :: l' => match f x with
               | Some y => Some y
               | None => first_some f l'
               end
  end.

Section RelativeToSpp.

Variable h : Host.

(** [casedpath]: [r and r[0] or path] *)
Definition casedpath (path : string) : string :=
  match glob_cased h path with
  | [] => path
  | r0 :: _ => if Py.str_truthy r0 then r0 else path
  end.

(** The Windows definition of [relative_to_spp]; [os.sep] is the backslash. *)
Definition relative_to_spp_windows (path : string) : option string :=
  let spp := packages_path h in
  first_some
    (fun p =>
       first_some
         (fun sp =>
            if Py.startswith p (sp +:+ String OsPath.nt_sep "")
            then Some (Py.slice_from (String.length sp) p)
            else None)
         [spp; casedpath (realpath h spp)])
    [path; casedpath (realpath h path)].

(** The body of the loop over [os.listdir(spp)] in the Linux and macOS
    definition: [None] is [continue] or falling through the [if]. *)
Definition via_symlink (spp path name : string) : option string :=
  let fullname := OsPath.join spp [name] in
  if negb (islink h fullname && isdir h fullname) then None
  else
    let target := readlink h fullname in
    if Py.startswith path (target +:+ "/")
    then Some (OsPath.join "/"
                 [name; Py.slice_from (String.length (target +:+ "/")) path])
    else None.

(** The Linux and macOS definition of [relative_to_spp]; [os.sep] is the
    slash and [os.path.join] is [posixpath.join]. *)
Definition relative_to_spp_posix (path : string) : option string :=
  let spp := realpath h (packages_path h) in
  if Py.startswith path (spp +:+ "/")
  then Some (Py.slice_from (String.length spp) path)
  else first_some (via_symlink spp path) (listdir h spp).

(** [relative_to_spp], as bound by the platform test at import time. *)
Definition relative_to_spp (path : string) : option string :=
  if is_windows h then relative_to_spp_windows path
  else relative_to_spp_posix path.

End RelativeToSpp.

(** A Linux host whose packages directory holds one symlinked package,
    [Linked -> /src/linked], and which is itself reached through its real
    location. *)
Definition linux_host : Host := {|
  platform_system := "Linux";
  packages_path := "/st/Packages";
  realpath := fun p => p;
  glob_cased := fun _ => [];
  listdir := fun d => if String.eqb d "/st/Packages" then ["Plain"; "Linked"] else [];
  islink := fun p => String.eqb p "/st/Packages/Linked";
  isdir := fun p => String.eqb p "/st/Packages/Linked" || String.eqb p "/st/Packages/Plain";
  readlink := fun p => if String.eqb p "/st/Packages/Linked" then "/src/linked" else "";
  basename := OsPath.posix_basename
|}.

(** A Windows host; the file system stores the packages directory as
    [C:\ST\Packages] whatever casing it is asked with. *)
Definition windows_host : Host := {|
  platform_system := "Windows";
  packages_path := "C:\ST\Packages";
  realpath := fun p => p;
  glob_cased := fun p =>
    if String.eqb p "c:\st\packages\Pkg\a.py" then ["C:\ST\Packages\Pkg\a.py"]
    else [];
  listdir := fun _ => [];
  islink := fun _ => false;
  isdir := fun _ => true;
  readlink := fun _ => "";
  basename := fun p => default "" (last (Py.split_char OsPath.nt_sep p))
|}.

(** ** The process state *)

(** A [Lock] object is known by its address in the heap of locks. *)
Abbreviation lock_id := nat.

(** What a reload can change inside the interpreter: [sys.modules] (module
    name to loaded-module handle) and the binding of the global name
    [reload_lock] in this module's namespace ([None]: the name is unbound). *)
Record Interp : Type := {
  sys_modules : gmap string nat;
  reload_lock : option lock_id
}.

Record View : Type := {
  is_scratch : bool;                       (* view.is_scratch() *)
  view_settings : gmap string Py.value;    (* view.settings() *)
  file_name : option string                (* view.file_name() *)
}.

Record Window : Type := {
  active_view : option View;               (* window.active_view() *)
  folders : list string;                   (* window.folders() *)
  active_panel : option string             (* window.active_panel() *)
}.

(** The callable handed to [Thread(target=...)]. *)
Inductive Target : Type :=
| TargetRunAsync.                          (* self.run_async *)

(** A started [threading.Thread]. *)
Record Thread : Type := {
  thread_name : string;
  thread_target : Target;
  thread_args : string
}.

(** Effects on the host, in the order they happen. *)
Inductive Event : Type :=
| EPrint (line : string)                                   (* print *)
| EStatusMessage (msg : string)                            (* sublime.status_message *)
| EWindowCommand (cmd : string) (args : list (string * string))
                                                            (* window.run_command *)
| EShowInputPanel (caption initial : string)               (* show_input_panel *)
| EViewCommand (cmd : string)                              (* view.run_command *)
| EAcquire (l : lock_id) (acquired : bool)                 (* lock.acquire(blocking=False) *)
| ERelease (l : lock_id)                                   (* lock.release() *)
| EProgressStart (label : string)                          (* progress_bar.start() *)
| EProgressStop (label : string)                           (* progress_bar.stop() *)
| EReloadPackage (pkg : string) (verbose : Py.value).      (* reload_package *)

Record World : Type := {
  w_interp : Interp;
  w_locks : gmap lock_id bool;             (* each Lock: is it held? *)
  w_settings : gmap string Py.value;       (* package_reloader.sublime-settings *)
  w_window : Window;
  w_threads : list Thread;                 (* threads started so far *)
  w_log : list Event
}.

Definition set_interp (i : Interp) (w : World) : World :=
  {| w_interp := i; w_locks := w_locks w; w_settings := w_settings w;
     w_window := w_window w; w_threads := w_threads w; w_log := w_log w |}.

Definition set_locks (m : gmap lock_id bool) (w : World) : World :=
  {| w_interp := w_interp w; w_locks := m; w_settings := w_settings w;
     w_window := w_window w; w_threads := w_threads w; w_log := w_log w |}.

Definition add_thread (t : Thread) (w : World) : World :=
  {| w_interp := w_interp w; w_locks := w_locks w; w_settings := w_settings w;
     w_window := w_window w; w_threads := w_threads w ++ [t]; w_log := w_log w |}.

Definition log (e : Event) (w : World) : World :=
  {| w_interp := w_interp w; w_locks := w_locks w; w_settings := w_settings w;
     w_window := w_window w; w_threads := w_threads w; w_log := w_log w ++ [e] |}.

(** Is lock [l] held?  A lock nobody acquired is free. *)
Definition held (m : gmap lock_id bool) (l : lock_id) : bool :=
  default false (m !! l).

(** ** Statements: state passing with exceptions *)

Definition M (A : Type) : Type := World -> World * (Py.exc + A).

#[global] Instance M_ret : MRet M := fun A x w => (w, inr x).

#[global] Instance M_bind : MBind M := fun A B f m w =>
  match m w with
  | (w', inl e) => (w', inl e)
  | (w', inr x) => f x w'
  end.

(** [raise e] *)
Definition raise {A : Type} (e : Py.exc) : M A := fun w => (w, inl e).

(** [pass], and the end of a function body. *)
Definition pass : M unit := mret ().

(** [try: body / except Exception: handler e]: a bare [raise] in the handler
    is [raise e]. *)
Definition try_except_Exception {A : Type}
    (body : M A) (handler : Py.exc -> M A) : M A := fun w =>
  match body w with
  | (w', inl e) =>
      if Py.isinstance_Exception e then handler e w' else (w', inl e)
  | (w', inr x) => (w', inr x)
  end.

(** [try: body / finally: final]: [final] runs on every exit of [body]; what
    [body] returned or raised stands unless [final] itself raises. *)
Definition try_finally {A : Type} (body : M A) (final : M unit) : M A := fun w =>
  match body w with
  | (w', r) =>
      match final w' with
      | (w'', inl e) => (w'', inl e)
      | (w'', inr _) => (w'', r)
      end
  end.

Definition emit (e : Event) : M unit := fun w => (log e w, inr ()).

Definition print (line : string) : M unit := emit (EPrint line).

Definition status_message (msg : string) : M unit := emit (EStatusMessage msg).

(** [window.run_command(cmd, args)]: the command sent is recorded; what the
    editor does with it (showing or hiding a panel, running the command) is
    not part of this file and is not modelled. *)
Definition window_run_command (cmd : string) (args : list (string * string)) : M unit :=
  emit (EWindowCommand cmd args).

(** [sublime.load_settings("package_reloader.sublime-settings")] *)
Definition load_settings : M (gmap string Py.value) := fun w =>
  (w, inr (w_settings w)).

(** [settings.get(key)]: [None] when the key is absent. *)
Definition settings_get (s : gmap string Py.value) (key : string) : Py.value :=
  default Py.VNone (s !! key).

Definition window_active_panel : M (option string) := fun w =>
  (w, inr (active_panel (w_window w))).

(** Reading the global [reload_lock]. *)
Definition global_reload_lock : M lock_id := fun w =>
  match reload_lock (w_interp w) with
  | Some l => (w, inr l)
  | None => (w, inl (Py.NameError "reload_lock"))
  end.

(** [lock.acquire(blocking=False)]: never waits; [False] when the lock is held. *)
Definition lock_acquire_nonblocking (l : lock_id) : M bool := fun w =>
  if held (w_locks w) l then (log (EAcquire l false) w, inr false)
  else (log (EAcquire l true) (set_locks (<[l:=true]> (w_locks w)) w), inr true).

(** [lock.release()]: releasing a lock that is not held is a [RuntimeError]. *)
Definition lock_release (l : lock_id) : M unit := fun w =>
  if held (w_locks w) l
  then (log (ERelease l) (set_locks (<[l:=false]> (w_locks w)) w), inr ())
  else (w, inl (Py.RuntimeError "release unlocked lock")).

(** Modelled from the spec: [ProgressBar] of the sibling module [reloader],
    an indicator that animates a status-bar marker between [start()] and
    [stop()] and has no other effect.  A [ProgressBar] is known by its label. *)
Definition progress_bar_start (label : string) : M unit := emit (EProgressStart label).

(** Modelled from the spec: [ProgressBar.stop()], see [progress_bar_start]. *)
Definition progress_bar_stop (label : string) : M unit := emit (EProgressStop label).

(** [Thread(name=..., target=..., args=(arg,)).start()] *)
Definition thread_start (name : string) (target : Target) (arg : string) : M unit :=
  fun w =>
    (add_thread {| thread_name := name; thread_target := target; thread_args := arg |} w,
     inr ()).

(** ** The module body: [reload_lock]

    [try: reload_lock / except NameError: reload_lock = Lock()], executed in
    the module's namespace: it touches the binding of [reload_lock] and, when
    it constructs a lock, the heap. *)

(** [Lock()]: a new, free lock at an address no lock has. *)
Definition new_lock (m : gmap lock_id bool) : lock_id * gmap lock_id bool :=
  let l := fresh (dom m) in (l, <[l:=false]> m).

Definition module_body (binding : option lock_id) (m : gmap lock_id bool)
    : option lock_id * gmap lock_id bool :=
  match binding with
  | Some l => (Some l, m)
  | None => let '(l, m') := new_lock m in (Some l, m')
  end.

(** Executing the module body in the namespace of world [w]. *)
Definition exec_module_body (w : World) : World :=
  let '(b, m) := module_body (reload_lock (w_interp w)) (w_locks w) in
  set_locks m
    (set_interp {| sys_modules := sys_modules (w_interp w); reload_lock := b |} w).

(** ** [PackageReloaderListener] *)

Section Commands.

Variable h : Host.

(** [reload_package(pkg_name, verbose=...)] of the sibling module [reloader]:
    it may change [sys.modules] and rebind module globals, and it either
    returns or raises. *)
Variable reload_package : string -> Py.value -> Interp -> Interp * option Py.exc.

Definition on_post_save (view : View) : M unit :=
  if is_scratch view || Py.truthy (settings_get (view_settings view) "is_widget")
  then pass
  else
    match file_name view with
    | Some file_name =>
        if Py.str_truthy file_name
           && Py.endswith file_name ".py"
           && Py.opt_truthy (relative_to_spp h file_name)
        then
          package_reloader_settings ← load_settings;
          if Py.truthy (settings_get package_reloader_settings "reload_on_save")
          then window_run_command "package_reloader_reload" []
          else pass
        else pass
    | None => pass
    end.

(** ** [PackageReloaderToggleReloadOnSaveCommand] *)

Definition settings_set (key : string) (v : Py.value) : M unit := fun w =>
  ({| w_interp := w_interp w; w_locks := w_locks w;
      w_settings := <[key:=v]> (w_settings w);
      w_window := w_window w; w_threads := w_threads w; w_log := w_log w |},
   inr ()).

Definition toggle_run : M unit :=
  package_reloader_settings ← load_settings;
  let reload_on_save :=
    negb (Py.truthy (settings_get package_reloader_settings "reload_on_save")) in
  settings_set "reload_on_save" (Py.VBool reload_on_save);;
  let onoff := if reload_on_save then "on" else "off" in
  status_message ("Package Reloader: Reload on Save is " +:+ onoff +:+ ".").

(** ** [PackageReloaderReloadCommand] *)

(** The second half of [current_package_name]: the first window folder. *)
Definition package_of_folders (win : Window) : option string :=
  match folders win with
  | [] => None
  | folder :: _ =>
      match relative_to_spp h folder with
      | Some first_folder =>
          if Py.str_truthy first_folder then Some (basename h first_folder)
          else None
      | None => None
      end
  end.

(** The property [current_package_name]; [file_path.split(os.sep)[1]] is an
    [IndexError] when there is no second piece. *)
Definition current_package_name (win : Window) : Py.exc + option string :=
  match active_view win ≫= file_name with
  | Some name =>
      if Py.str_truthy name then
        match relative_to_spp h name with
        | Some file_path =>
            if Py.str_truthy file_path && Py.endswith file_path ".py" then
              match Py.split_char (os_sep h) file_path !! 1 with
              | Some pkg => inr (Some pkg)
              | None => inl Py.IndexError
              end
            else inr (package_of_folders win)
        | None => inr (package_of_folders win)
        end
      else inr (package_of_folders win)
  | None => inr (package_of_folders win)
  end.

Definition get_current_package_name : M (option string) := fun w =>
  match current_package_name (w_window w) with
  | inl e => (w, inl e)
  | inr r => (w, inr r)
  end.

(** [prompt_package(callback)]; the callback, [lambda x: self.run(pkg_name=x)],
    is called by the editor when the input panel is confirmed (see [on_done]
    below). *)
Definition prompt_package : M unit :=
  package ← get_current_package_name;
  let package :=
    if Py.opt_truthy package then default "" package else "" in
  emit (EShowInputPanel "Package:" package);;
  emit (EViewCommand "select_all").

Definition run (pkg_name : option string) : M unit :=
  if bool_decide (pkg_name = Some "<prompt>") then prompt_package
  else
    match pkg_name with
    | None =>
        detected ← get_current_package_name;
        match detected with
        | None => print "Cannot detect package name."
        | Some pkg_name =>
            thread_start "AutomaticPackageReloader" TargetRunAsync pkg_name
        end
    | Some pkg_name =>
        thread_start "AutomaticPackageReloader" TargetRunAsync pkg_name
    end.

(** The callback given to the input panel. *)
Definition on_done (x : string) : M unit := run (Some x).

(** The call of [reload_package], inside the [try]. *)
Definition call_reload_package (pkg_name : string) (verbose : Py.value) : M unit :=
  fun w =>
    let '(i, r) := reload_package pkg_name verbose (w_interp w) in
    let w' := set_interp i (log (EReloadPackage pkg_name verbose) w) in
    match r with
    | None => (w', inr ())
    | Some e => (w', inl e)
    end.

Definition console_panel : list (string * string) := [("panel", "console")].

Definition run_async (pkg_name : string) : M unit :=
  lock ← global_reload_lock;
  acquired ← lock_acquire_nonblocking lock;
  if negb acquired then print "Reloader is running."
  else
    pr_settings ← load_settings;
    let open_console := settings_get pr_settings "open_console" in
    let open_console_on_failure := settings_get pr_settings "open_console_on_failure" in
    let close_console_on_success := settings_get pr_settings "close_console_on_success" in
    let progress_bar := "Reloading " +:+ pkg_name in
    progress_bar_start progress_bar;;
    panel ← window_active_panel;
    let console_opened := bool_decide (panel = Some "console") in
    (if negb console_opened && Py.truthy open_console
     then window_run_command "show_panel" console_panel
     else pass);;
    try_finally
      (try_except_Exception
         (call_reload_package pkg_name (settings_get pr_settings "verbose");;
          (if Py.truthy close_console_on_success
           then window_run_command "hide_panel" console_panel
           else pass);;
          status_message (pkg_name +:+ " reloaded."))
         (fun e =>
            (if Py.truthy open_console_on_failure
             then window_run_command "show_panel" console_panel
             else pass);;
            status_message ("Fail to reload " +:+ pkg_name +:+ ".");;
            raise e))
      (progress_bar_stop progress_bar;;
       lock_release lock).

(** What a started thread executes. *)
Definition thread_run (t : Thread) : M unit :=
  match thread_target t with
  | TargetRunAsync => run_async (thread_args t)
  end.

End Commands.

(** ** Traces *)

(** The events a statement emits when run from [w]. *)
Definition events_of {A : Type} (c : M A) (w : World) : list Event :=
  drop (length (w_log w)) (w_log (c w).1).

(** Modelled from the spec: the indicator of [ProgressBar] runs from
    [start()] to [stop()].  Is it running after these events? *)
Definition progress_running (evs : list Event) : bool :=
  foldl (fun running e =>
           match e with
           | EProgressStart _ => true
           | EProgressStop _ => false
           | _ => running
           end) false evs.

(** The last status-bar message among these events. *)
Definition final_status (evs : list Event) : option string :=
  foldl (fun last e =>
           match e with
           | EStatusMessage msg => Some msg
           | _ => last
           end) None evs.

(** [msg] names the package [pkg]. *)
Definition names_package (pkg msg : string) : Prop :=
  exists before after, msg = before +:+ pkg +:+ after.

(** The trace of [run_async] once the lock is acquired, piece by piece. *)
Definition console_events (w : World) : list Event :=
  if negb (bool_decide (active_panel (w_window w) = Some "console"))
     && Py.truthy (settings_get (w_settings w) "open_console")
  then [EWindowCommand "show_panel" console_panel] else [].

Definition success_events (pkg_name : string) (w : World) : list Event :=
  (if Py.truthy (settings_get (w_settings w) "close_console_on_success")
   then [EWindowCommand "hide_panel" console_panel] else [])
  ++ [EStatusMessage (pkg_name +:+ " reloaded.")].

Definition failure_events (pkg_name : string) (w : World) (e : Py.exc) : list Event :=
  if Py.isinstance_Exception e then
    (if Py.truthy (settings_get (w_settings w) "open_console_on_failure")
     then [EWindowCommand "show_panel" console_panel] else [])
    ++ [EStatusMessage ("Fail to reload " +:+ pkg_name +:+ ".")]
  else [].

Definition outcome_events (pkg_name : string) (w : World) (r : option Py.exc)
    : list Event :=
  match r with
  | None => success_events pkg_name w
  | Some e => failure_events pkg_name w e
  end.

Definition acquired_events (pkg_name : string) (w : World) (l : lock_id)
    (r : option Py.exc) : list Event :=
  [EAcquire l true; EProgressStart ("Reloading " +:+ pkg_name)]
  ++ console_events w
  ++ [EReloadPackage pkg_name (settings_get (w_settings w) "verbose")]
  ++ outcome_events pkg_name w r
  ++ [EProgressStop ("Reloading " +:+ pkg_name); ERelease l].

Definition outcome_result (r : option Py.exc) : Py.exc + unit :=
  match r with
  | None => inr ()
  | Some e => inl e
  end.

(** ** The claims about [run_async] as the specification words them *)

(** The events of the Locking state (the attempt on the lock) and of the
    Unloading and Reimporting states (the call of [reload_package]). *)
Definition in_reload_phase (e : Event) : bool :=
  match e with
  | EAcquire _ _ => true
  | EReloadPackage _ _ => true
  | _ => false
  end.

(** The indicator is running whenever an event of those states happens. *)
Definition running_throughout (evs : list Event) : Prop :=
  forall k e, evs !! k = Some e -> in_reload_phase e = true ->
    progress_running (take k evs) = true.

(** A final status message naming the package was emitted. *)
Definition status_names_package (pkg : string) (evs : list Event) : Prop :=
  exists msg, final_status evs = Some msg /\ names_package pkg msg.

(** ** [relative_to_spp] as the specification words it *)

(** [path] lies under the directory [dir]: it is [dir], a separator and the
    rest. *)
Definition lies_under (sep dir path : string) : Prop :=
  exists rest, path = dir +:+ sep +:+ rest.

(** [name] is an entry of [loc] that is a symlink to a directory. *)
Definition symlinked_package_dir (h : Host) (loc name : string) : Prop :=
  name ∈ listdir h loc
  /\ islink h (OsPath.join loc [name]) = true
  /\ isdir h (OsPath.join loc [name]) = true.

(** The path lies under the package search location [loc]: on Windows
    directly or through a case-normalized variant of either path; on Linux and
    macOS directly or under the target of a symlinked package directory. *)
Definition under_search_location (h : Host) (loc path : string) : Prop :=
  if is_windows h then
    exists p sp,
      p ∈ [path; casedpath h (realpath h path)]
      /\ sp ∈ [loc; casedpath h (realpath h loc)]
      /\ lies_under (String OsPath.nt_sep "") sp p
  else
    lies_under "/" loc path
    \/ exists name,
         symlinked_package_dir h loc name
         /\ lies_under "/" (readlink h (OsPath.join loc [name])) path.

(** The location the code compares with: the editor's packages path, on Linux
    and macOS with its symlinks resolved. *)
Definition resolved_packages_path (h : Host) : string :=
  if is_windows h then packages_path h else realpath h (packages_path h).

(** ** The claims about [on_post_save] and [run] as the specification words them *)

(** The save triggered the reload command. *)
Definition reload_triggered (h : Host) (view : View) (w : World) : Prop :=
  EWindowCommand "package_reloader_reload" [] ∈ events_of (on_post_save h view) w.

(** The thread [run] starts. *)
Definition worker_thread (pkg_name : string) : Thread :=
  {| thread_name := "AutomaticPackageReloader";
     thread_target := TargetRunAsync;
     thread_args := pkg_name |}.

(** ** Sample hosts and worlds *)

(** A reload that succeeds and leaves the interpreter as it was. *)
Definition reload_ok : string -> Py.value -> Interp -> Interp * option Py.exc :=
  fun _ _ i => (i, None).

(** A reload during which a module body raises exception object [7]; the
    reload also re-imported this module into a fresh namespace, rebinding
    [reload_lock] to another lock. *)
Definition reload_raising (is_Exception : bool)
    : string -> Py.value -> Interp -> Interp * option Py.exc :=
  fun _ _ i =>
    ({| sys_modules := delete "demo.util" (sys_modules i); reload_lock := Some 5 |},
     Some (Py.Raised is_Exception 7)).

Definition demo_window : Window := {|
  active_view := Some {| is_scratch := false; view_settings := ∅;
                         file_name := Some "/home/u/notes.py" |};
  folders := ["/home/u"];
  active_panel := None
|}.

(** The reload lock is lock [0], free; two modules of [demo] are loaded. *)
Definition demo_world : World := {|
  w_interp := {| sys_modules := {[ "demo" := 1; "demo.util" := 2 ]};
                 reload_lock := Some 0 |};
  w_locks := {[ 0 := false ]};
  w_settings := {[ "open_console" := Py.VBool true;
                   "reload_on_save" := Py.VBool true ]};
  w_window := demo_window;
  w_threads := [];
  w_log := []
|}.

(** The same world while another reload holds the lock. *)
Definition busy_world : World := set_locks {[ 0 := true ]} demo_world.

(** A Linux host whose configuration directory [/home/u/st] is a symlink to
    [/data/st]; the package [Foo] is a plain directory. *)
Definition symlinked_config_host : Host := {|
  platform_system := "Linux";
  packages_path := "/home/u/st/Packages";
  realpath := fun p =>
    if Py.startswith p "/home/u/st/" then "/data/st/" +:+ Py.slice_from 11 p else p;
  glob_cased := fun _ => [];
  listdir := fun d =>
    if String.eqb d "/data/st/Packages" || String.eqb d "/home/u/st/Packages"
    then ["Foo"] else [];
  islink := fun p => String.eqb p "/home/u/st";
  isdir := fun _ => true;
  readlink := fun p => if String.eqb p "/home/u/st" then "/data/st" else "";
  basename := OsPath.posix_basename
|}.

(** A view on a file of the plain package of [linux_host]. *)
Definition plain_view : View :=
  {| is_scratch := false; view_settings := ∅;
     file_name := Some "/st/Packages/Plain/a.py" |}.

(** ** Further vocabulary for the properties of the commands *)

(** Does the character [c] occur in [s]? *)
Fixpoint contains_char (c : ascii) (s : string) : bool :=
  match s with
  | EmptyString => false
  | String a s' => Ascii.eqb a c || contains_char c s'
  end.

(** Is the event a call of [reload_package]? *)
Definition is_reload_call (e : Event) : bool :=
  match e with
  | EReloadPackage _ _ => true
  | _ => false
  end.

(** The two console commands of [run_async]. *)
Definition show_console : Event := EWindowCommand "show_panel" console_panel.

Definition hide_console : Event := EWindowCommand "hide_panel" console_panel.

(** The status line of [PackageReloaderToggleReloadOnSaveCommand.run]. *)
Definition toggle_message (reload_on_save : bool) : string :=
  "Package Reloader: Reload on Save is "
  +:+ (if reload_on_save then "on" else "off") +:+ ".".

(** A window whose active view shows [path] and that has no folders. *)
Definition window_on (path : string) : Window :=
  {| active_view := Some {| is_scratch := false; view_settings := ∅;
                            file_name := Some path |};
     folders := [];
     active_panel := None |}.

(** [demo_world] before this module was ever imported: [reload_lock] is
    unbound. *)
Definition unimported_world : World :=
  set_interp {| sys_modules := sys_modules (w_interp demo_world);
                reload_lock := None |} demo_world.

(** The conditions [on_post_save] puts on the saved view. *)
Definition eligible_view (h : Host) (view : View) : Prop :=
  is_scratch view = false
  /\ Py.truthy (settings_get (view_settings view) "is_widget") = false
  /\ exists name, file_name view = Some name
                  /\ Py.endswith name ".py" = true
                  /\ relative_to_spp h name <> None.

(** The same conditions as the code tests them. *)
Definition eligible_viewb (h : Host) (view : View) : bool :=
  negb (is_scratch view
        || Py.truthy (settings_get (view_settings view) "is_widget"))
  && match file_name view with
     | Some name =>
         Py.str_truthy name && Py.endswith name ".py"
         && Py.opt_truthy (relative_to_spp h name)
     | None => false
     end.

(** The command [on_post_save] sends. *)
Definition reload_command : Event := EWindowCommand "package_reloader_reload" [].

(** World [w] with another window. *)
Definition set_window (win : Window) (w : World) : World :=
  {| w_interp := w_interp w; w_locks := w_locks w; w_settings := w_settings w;
     w_window := win; w_threads := w_threads w; w_log := w_log w |}.

(** Modelled from the spec: the reload engine ([reload_package] of the
    sibling module [reloader]) re-imports a module by re-executing its body,
    and this module's lock is meant to be preserved across reloads of the
    reloader itself.  [reload_reexecuting m k mods r] is a reload during
    which the body of this module is executed [k] times in the module's own
    namespace, [m] being the heap of locks when [reload_package] is called,
    which leaves [sys.modules] as [mods] and ends as [r] ([None]: it
    returns).  Inside [run_async] the name [reload_lock] is bound when
    [reload_package] runs, so the body constructs no lock there. *)
Definition reload_reexecuting (m : gmap lock_id bool) (k : nat)
    (mods : gmap string nat) (r : option Py.exc)
    : string -> Py.value -> Interp -> Interp * option Py.exc :=
  fun _ _ i =>
    ({| sys_modules := mods;
        reload_lock := Nat.iter k (fun binding => (module_body binding m).1)
                         (reload_lock i) |},
     r).

(** A Linux host whose package [Linked] is a symlink with a relative link
    text, [Linked -> ../src/linked], that is the directory [/st/src/linked]. *)
Definition relative_link_host : Host := {|
  platform_system := "Linux";
  packages_path := "/st/Packages";
  realpath := fun p =>
    if Py.startswith p "/st/Packages/Linked"
    then "/st/src/linked" +:+ Py.slice_from 19 p else p;
  glob_cased := fun _ => [];
  listdir := fun d => if String.eqb d "/st/Packages" then ["Linked"] else [];
  islink := fun p => String.eqb p "/st/Packages/Linked";
  isdir := fun p => String.eqb p "/st/Packages/Linked" || String.eqb p "/st/src/linked";
  readlink := fun p => if String.eqb p "/st/Packages/Linked" then "../src/linked" else "";
  basename := OsPath.posix_basename
|}.

(** * Verification *)

(** ** The string operations and [relative_to_spp] on examples *)

Example slice_from_ex : Py.slice_from 3 "abcdef" = "def".
Proof. reflexivity. Qed.

Example endswith_ex :
  Py.endswith "a/b.py" ".py" = true /\ Py.endswith "py" ".py" = false.
Proof. split; reflexivity. Qed.

Example split_ex : Py.split_char "/" "/Pkg/a.py" = [""; "Pkg"; "a.py"].
Proof. reflexivity. Qed.

Example join_ex :
  OsPath.join "/" ["Pkg"; "sub/a.py"] = "/Pkg/sub/a.py"
  /\ OsPath.join "/" ["Pkg"; "/abs"] = "/abs".
Proof. split; reflexivity. Qed.

Example relative_direct :
  relative_to_spp linux_host "/st/Packages/Plain/a.py" = Some "/Plain/a.py".
Proof. reflexivity. Qed.

Example relative_symlink :
  relative_to_spp linux_host "/src/linked/sub/a.py" = Some "/Linked/sub/a.py".
Proof. reflexivity. Qed.

Example relative_outside :
  relative_to_spp linux_host "/home/u/a.py" = None.
Proof. reflexivity. Qed.

Example relative_windows_cased :
  relative_to_spp windows_host "c:\st\packages\Pkg\a.py" = Some "\Pkg\a.py".
Proof. reflexivity. Qed.

(** ** [run_async] on examples *)

Example run_async_success_trace :
  run_async reload_ok "demo" demo_world
  = ({| w_interp := w_interp demo_world;
        w_locks := {[ 0 := false ]};
        w_settings := w_settings demo_world;
        w_window := demo_window;
        w_threads := [];
        w_log := [EAcquire 0 true; EProgressStart "Reloading demo";
                  EWindowCommand "show_panel" [("panel", "console")];
                  EReloadPackage "demo" Py.VNone;
                  EStatusMessage "demo reloaded.";
                  EProgressStop "Reloading demo"; ERelease 0] |},
     inr ()).
Proof. vm_compute. reflexivity. Qed.

Example run_async_failure_trace :
  events_of (run_async (reload_raising true) "demo") demo_world
  = [EAcquire 0 true; EProgressStart "Reloading demo";
     EWindowCommand "show_panel" [("panel", "console")];
     EReloadPackage "demo" Py.VNone;
     EStatusMessage "Fail to reload demo.";
     EProgressStop "Reloading demo"; ERelease 0]
  /\ (run_async (reload_raising true) "demo" demo_world).2 = inl (Py.Raised true 7).
Proof. split; vm_compute; reflexivity. Qed.

Example run_async_base_exception_trace :
  events_of (run_async (reload_raising false) "demo") demo_world
  = [EAcquire 0 true; EProgressStart "Reloading demo";
     EWindowCommand "show_panel" [("panel", "console")];
     EReloadPackage "demo" Py.VNone;
     EProgressStop "Reloading demo"; ERelease 0]
  /\ (run_async (reload_raising false) "demo" demo_world).2 = inl (Py.Raised false 7).
Proof. split; vm_compute; reflexivity. Qed.

Example run_async_busy_trace :
  events_of (run_async reload_ok "demo") busy_world
  = [EAcquire 0 false; EPrint "Reloader is running."].
Proof. vm_compute. reflexivity. Qed.

Example module_body_twice :
  exec_module_body (exec_module_body demo_world) = demo_world
  /\ reload_lock (w_interp (exec_module_body
        (set_interp {| sys_modules := ∅; reload_lock := None |} demo_world)))
     = Some 1.
Proof. split; vm_compute; reflexivity. Qed.

(** ** Facts about the lock heap and the log *)

Lemma held_insert (m : gmap lock_id bool) (l : lock_id) (b : bool) :
  held (<[l:=b]> m) l = b.
Proof. unfold held. by rewrite lookup_insert_eq. Qed.

Lemma held_insert_ne (m : gmap lock_id bool) (l l' : lock_id) (b : bool) :
  l <> l' -> held (<[l:=b]> m) l' = held m l'.
Proof. intros Hne. unfold held. by rewrite lookup_insert_ne. Qed.

Lemma events_of_app {A : Type} (c : M A) (w : World) (evs : list Event) :
  w_log (c w).1 = w_log w ++ evs -> events_of c w = evs.
Proof. intros Heq. unfold events_of. rewrite Heq. apply drop_app_length. Qed.

Lemma World_eq (w w' : World) :
  w_interp w = w_interp w' ->
  w_locks w = w_locks w' ->
  w_settings w = w_settings w' ->
  w_window w = w_window w' ->
  w_threads w = w_threads w' ->
  w_log w = w_log w' ->
  w = w'.
Proof. destruct w, w'; simpl; intros; congruence. Qed.

Lemma log_interp e w : w_interp (log e w) = w_interp w.
Proof. reflexivity. Qed.
Lemma log_locks e w : w_locks (log e w) = w_locks w.
Proof. reflexivity. Qed.
Lemma log_settings e w : w_settings (log e w) = w_settings w.
Proof. reflexivity. Qed.
Lemma log_window e w : w_window (log e w) = w_window w.
Proof. reflexivity. Qed.
Lemma log_threads e w : w_threads (log e w) = w_threads w.
Proof. reflexivity. Qed.
Lemma log_log e w : w_log (log e w) = w_log w ++ [e].
Proof. reflexivity. Qed.

Lemma set_locks_interp m w : w_interp (set_locks m w) = w_interp w.
Proof. reflexivity. Qed.
Lemma set_locks_locks m w : w_locks (set_locks m w) = m.
Proof. reflexivity. Qed.
Lemma set_locks_settings m w : w_settings (set_locks m w) = w_settings w.
Proof. reflexivity. Qed.
Lemma set_locks_window m w : w_window (set_locks m w) = w_window w.
Proof. reflexivity. Qed.
Lemma set_locks_threads m w : w_threads (set_locks m w) = w_threads w.
Proof. reflexivity. Qed.
Lemma set_locks_log m w : w_log (set_locks m w) = w_log w.
Proof. reflexivity. Qed.

Lemma set_interp_interp i w : w_interp (set_interp i w) = i.
Proof. reflexivity. Qed.
Lemma set_interp_locks i w : w_locks (set_interp i w) = w_locks w.
Proof. reflexivity. Qed.
Lemma set_interp_settings i w : w_settings (set_interp i w) = w_settings w.
Proof. reflexivity. Qed.
Lemma set_interp_window i w : w_window (set_interp i w) = w_window w.
Proof. reflexivity. Qed.
Lemma set_interp_threads i w : w_threads (set_interp i w) = w_threads w.
Proof. reflexivity. Qed.
Lemma set_interp_log i w : w_log (set_interp i w) = w_log w.
Proof. reflexivity. Qed.

Create Rewrite HintDb world.

#[export] Hint Rewrite
  log_interp log_locks log_settings log_window log_threads log_log
  set_locks_interp set_locks_locks set_locks_settings set_locks_window
  set_locks_threads set_locks_log
  set_interp_interp set_interp_locks set_interp_settings set_interp_window
  set_interp_threads set_interp_log : world.

#[global] Opaque log set_locks set_interp.

(** Two worlds are equal when their six components are. *)
Ltac world_eq :=
  apply World_eq; autorewrite with world; cbn [w_interp w_locks w_settings
    w_window w_threads w_log]; try reflexivity.

Section RunAsyncFacts.

Variable reload_package : string -> Py.value -> Interp -> Interp * option Py.exc.

(** The whole effect of [run_async] when the lock is free. *)
Lemma run_async_acquired (pkg_name : string) (w : World) (l : lock_id)
    (i : Interp) (r : option Py.exc) :
  reload_lock (w_interp w) = Some l ->
  held (w_locks w) l = false ->
  reload_package pkg_name (settings_get (w_settings w) "verbose") (w_interp w)
    = (i, r) ->
  run_async reload_package pkg_name w =
    ({| w_interp := i;
        w_locks := <[l:=false]> (w_locks w);
        w_settings := w_settings w;
        w_window := w_window w;
        w_threads := w_threads w;
        w_log := w_log w ++ acquired_events pkg_name w l r |},
     outcome_result r).
Proof.
  intros Hl Hfree Hrp.
  unfold run_async, acquired_events, outcome_events, success_events,
    failure_events, console_events.
  unfold mbind, M_bind, global_reload_lock, lock_acquire_nonblocking.
  rewrite Hl, Hfree. cbn [negb].
  unfold load_settings, progress_bar_start, window_active_panel, emit.
  autorewrite with world.
  unfold try_finally, try_except_Exception, call_reload_package,
    progress_bar_stop, lock_release, status_message, window_run_command,
    raise, pass, emit, mret, M_ret, mbind, M_bind.
  destruct (negb (bool_decide (active_panel (w_window w) = Some "console"))
            && Py.truthy (settings_get (w_settings w) "open_console"));
    autorewrite with world; rewrite Hrp;
    (destruct r as [e|];
     [ destruct (Py.isinstance_Exception e);
       [ destruct (Py.truthy (settings_get (w_settings w) "open_console_on_failure")) | ]
     | destruct (Py.truthy (settings_get (w_settings w) "close_console_on_success")) ]);
    autorewrite with world; rewrite held_insert;
    cbn [outcome_result]; f_equal; world_eq;
    try (by rewrite insert_insert_eq);
    repeat rewrite <- app_assoc; reflexivity.
Qed.

End RunAsyncFacts.

(** ** [run_async]: results *)

Lemma progress_running_stopped (evs : list Event) (label : string) (l : lock_id) :
  progress_running (evs ++ [EProgressStop label; ERelease l]) = false.
Proof. unfold progress_running. by rewrite foldl_app. Qed.

Lemma string_length_app (s1 s2 : string) :
  String.length (s1 +:+ s2) = String.length s1 + String.length s2.
Proof. induction s1 as [|c s1 IH]; simpl; [reflexivity | by rewrite IH]. Qed.

(** The two final messages differ for every package name. *)
Lemma fail_message_ne (pkg : string) :
  "Fail to reload " +:+ pkg +:+ "." <> pkg +:+ " reloaded.".
Proof.
  intros Heq. apply (f_equal String.length) in Heq.
  rewrite !string_length_app in Heq. simpl in Heq. lia.
Qed.

Lemma names_package_reloaded (pkg : string) :
  names_package pkg (pkg +:+ " reloaded.").
Proof. by exists "", " reloaded.". Qed.

Lemma names_package_fail (pkg : string) :
  names_package pkg ("Fail to reload " +:+ pkg +:+ ".").
Proof. by exists "Fail to reload ", ".". Qed.

Section RunAsync.

Variable reload_package : string -> Py.value -> Interp -> Interp * option Py.exc.

Lemma run_async_acquired_events (pkg_name : string) (w : World) (l : lock_id)
    (i : Interp) (r : option Py.exc) :
  reload_lock (w_interp w) = Some l ->
  held (w_locks w) l = false ->
  reload_package pkg_name (settings_get (w_settings w) "verbose") (w_interp w)
    = (i, r) ->
  events_of (run_async reload_package pkg_name) w = acquired_events pkg_name w l r.
Proof.
  intros Hl Hfree Hrp. apply events_of_app.
  by rewrite (run_async_acquired _ _ _ _ _ _ Hl Hfree Hrp).
Qed.

(** The whole effect of [run_async] when the lock is held. *)
Lemma run_async_held (pkg_name : string) (w : World) (l : lock_id) :
  reload_lock (w_interp w) = Some l ->
  held (w_locks w) l = true ->
  run_async reload_package pkg_name w
  = (log (EPrint "Reloader is running.") (log (EAcquire l false) w), inr ()).
Proof.
  intros Hl Hheld.
  unfold run_async, mbind, M_bind, global_reload_lock, lock_acquire_nonblocking.
  by rewrite Hl, Hheld.
Qed.

Lemma run_async_held_events (pkg_name : string) (w : World) (l : lock_id) :
  reload_lock (w_interp w) = Some l ->
  held (w_locks w) l = true ->
  events_of (run_async reload_package pkg_name) w
  = [EAcquire l false; EPrint "Reloader is running."].
Proof.
  intros Hl Hheld. apply events_of_app.
  rewrite (run_async_held _ _ _ Hl Hheld). cbn [fst]. autorewrite with world.
  by rewrite <- app_assoc.
Qed.

(** An acquiring [run_async] starts with the acquisition and ends with the
    release. *)
Lemma acquired_events_shape (pkg_name : string) (w : World) (l : lock_id)
    (r : option Py.exc) :
  exists evs, acquired_events pkg_name w l r = EAcquire l true :: evs ++ [ERelease l].
Proof.
  exists ([EProgressStart ("Reloading " +:+ pkg_name)] ++ console_events w
          ++ [EReloadPackage pkg_name (settings_get (w_settings w) "verbose")]
          ++ outcome_events pkg_name w r
          ++ [EProgressStop ("Reloading " +:+ pkg_name)]).
  unfold acquired_events. cbn [app]. f_equal. f_equal.
  repeat (rewrite <- app_assoc; cbn [app]). reflexivity.
Qed.

(** C1. When the reload lock is held by another reload, [run_async] returns at
    once: the attempt on the lock does not wait and fails, the busy line is
    printed, [reload_package] is not called, and [sys.modules], the locks and
    the started threads are as before. *)
Theorem run_async_busy (pkg_name : string) (w : World) (l : lock_id) :
  reload_lock (w_interp w) = Some l ->
  held (w_locks w) l = true ->
  let w' := (run_async reload_package pkg_name w).1 in
  (run_async reload_package pkg_name w).2 = inr ()
  /\ events_of (run_async reload_package pkg_name) w
     = [EAcquire l false; EPrint "Reloader is running."]
  /\ (forall pkg v, (EReloadPackage pkg v) ∉ events_of (run_async reload_package pkg_name) w)
  /\ w_interp w' = w_interp w
  /\ w_locks w' = w_locks w
  /\ w_threads w' = w_threads w.
Proof.
  intros Hl Hheld. cbn zeta.
  rewrite (run_async_held_events _ _ _ Hl Hheld), (run_async_held _ _ _ Hl Hheld).
  cbn [fst snd]. autorewrite with world.
  repeat split; try reflexivity.
  intros pkg v Hin. apply list_elem_of_In in Hin. simpl in Hin.
  destruct Hin as [Heq | [Heq | []]]; discriminate.
Qed.

(** C2. Whenever [run_async] acquires the lock, the lock is free again when
    [run_async] is over, whether [reload_package] returned or raised: the
    trace starts with the acquisition and ends with the release. *)
Theorem run_async_releases_lock (pkg_name : string) (w : World) (l : lock_id) :
  reload_lock (w_interp w) = Some l ->
  held (w_locks w) l = false ->
  let w' := (run_async reload_package pkg_name w).1 in
  held (w_locks w') l = false
  /\ exists evs,
       events_of (run_async reload_package pkg_name) w
       = EAcquire l true :: evs ++ [ERelease l].
Proof.
  intros Hl Hfree.
  destruct (reload_package pkg_name (settings_get (w_settings w) "verbose")
              (w_interp w)) as [i r] eqn:Hrp.
  cbn zeta. rewrite (run_async_acquired_events _ _ _ _ _ Hl Hfree Hrp).
  rewrite (run_async_acquired _ _ _ _ _ _ Hl Hfree Hrp). cbn [fst w_locks].
  split; [apply held_insert | apply acquired_events_shape].
Qed.

(** C3. Whatever exception [e] a module body raises inside [reload_package],
    of any class, [run_async] goes no further in the [try] body (the console
    is not hidden, no success message), stops the progress indicator, releases
    the lock and raises that same [e]. *)
Theorem run_async_reraises (pkg_name : string) (w : World) (l : lock_id)
    (i : Interp) (e : Py.exc) :
  reload_lock (w_interp w) = Some l ->
  held (w_locks w) l = false ->
  reload_package pkg_name (settings_get (w_settings w) "verbose") (w_interp w)
    = (i, Some e) ->
  let w' := (run_async reload_package pkg_name w).1 in
  let evs := events_of (run_async reload_package pkg_name) w in
  (run_async reload_package pkg_name w).2 = inl e
  /\ held (w_locks w') l = false
  /\ progress_running evs = false
  /\ (EStatusMessage (pkg_name +:+ " reloaded.") ∉ evs)
  /\ (EWindowCommand "hide_panel" console_panel ∉ evs)
  /\ exists before,
       evs = before ++ [EProgressStop ("Reloading " +:+ pkg_name); ERelease l].
Proof.
  intros Hl Hfree Hrp. cbn zeta.
  rewrite (run_async_acquired_events _ _ _ _ _ Hl Hfree Hrp).
  rewrite (run_async_acquired _ _ _ _ _ _ Hl Hfree Hrp). cbn [fst snd w_locks].
  assert (Hshape : acquired_events pkg_name w l (Some e)
    = ([EAcquire l true; EProgressStart ("Reloading " +:+ pkg_name)]
       ++ console_events w
       ++ [EReloadPackage pkg_name (settings_get (w_settings w) "verbose")]
       ++ failure_events pkg_name w e)
      ++ [EProgressStop ("Reloading " +:+ pkg_name); ERelease l]).
  { unfold acquired_events, outcome_events. by repeat rewrite <- app_assoc. }
  split; [reflexivity |]. split; [apply held_insert |].
  split; [rewrite Hshape; apply progress_running_stopped |].
  split; [| split; [| eexists; exact Hshape]];
    unfold acquired_events, outcome_events, failure_events, console_events,
      console_panel;
    intros Hin; apply list_elem_of_In in Hin;
    destruct (negb (bool_decide (active_panel (w_window w) = Some "console"))
              && Py.truthy (settings_get (w_settings w) "open_console")),
      (Py.isinstance_Exception e),
      (Py.truthy (settings_get (w_settings w) "open_console_on_failure"));
    simpl in Hin;
    repeat match goal with
           | H : _ \/ _ |- _ => destruct H
           | H : False |- _ => destruct H
           | H : EStatusMessage _ = EStatusMessage _ |- _ =>
               injection H as H; by apply fail_message_ne in H
           | H : _ = EStatusMessage _ |- _ => discriminate H
           | H : _ = EWindowCommand _ _ |- _ => discriminate H
           end.
Qed.

End RunAsync.

(** ** The module body keeps its lock *)

Lemma module_body_bound (l : lock_id) (m : gmap lock_id bool) :
  module_body (Some l) m = (Some l, m).
Proof. reflexivity. Qed.

(** The first execution, with [reload_lock] unbound, constructs one lock that
    did not exist. *)
Lemma module_body_first (m : gmap lock_id bool) :
  exists l, module_body None m = (Some l, <[l:=false]> m) /\ m !! l = None.
Proof.
  exists (fresh (dom m)). split; [reflexivity |].
  apply not_elem_of_dom. apply is_fresh.
Qed.

Lemma exec_module_body_bound (w : World) (l : lock_id) :
  reload_lock (w_interp w) = Some l -> exec_module_body w = w.
Proof.
  intros Hl. unfold exec_module_body. rewrite Hl, module_body_bound.
  world_eq. destruct (w_interp w) as [mods b]. simpl in *. by subst.
Qed.

Lemma exec_module_body_binds (w : World) :
  exists l, reload_lock (w_interp (exec_module_body w)) = Some l.
Proof.
  unfold exec_module_body.
  destruct (reload_lock (w_interp w)) as [l|]; cbn [module_body new_lock];
    eexists; autorewrite with world; reflexivity.
Qed.

(** Once executed, executing the module body again any number of times
    changes nothing. *)
Lemma exec_module_body_iter (w : World) (n : nat) :
  Nat.iter (S n) exec_module_body w = exec_module_body w.
Proof.
  induction n as [|n IH]; [reflexivity |].
  change (exec_module_body (Nat.iter (S n) exec_module_body w) = exec_module_body w).
  rewrite IH. destruct (exec_module_body_binds w) as [l Hl].
  by apply exec_module_body_bound with l.
Qed.

Lemma iter_module_body_bound (m : gmap lock_id bool) (l : lock_id) (k : nat) :
  Nat.iter k (fun binding => (module_body binding m).1) (Some l) = Some l.
Proof.
  induction k as [|k IH]; [reflexivity |].
  by rewrite Nat.iter_succ, IH.
Qed.

Lemma exec_module_body_iter_bound (w : World) (l : lock_id) (n : nat) :
  reload_lock (w_interp w) = Some l -> Nat.iter n exec_module_body w = w.
Proof.
  intros Hl. induction n as [|n IH]; [reflexivity |].
  change (exec_module_body (Nat.iter n exec_module_body w) = w).
  rewrite IH. by apply exec_module_body_bound with l.
Qed.

Section RunAsyncTrace.

Variable reload_package : string -> Py.value -> Interp -> Interp * option Py.exc.

(** The lock events of an acquiring [run_async] concern the lock it read
    from the global at its start, whatever [reload_package] does. *)
Lemma run_async_lock_events (pkg_name : string) (w : World) (l : lock_id) :
  reload_lock (w_interp w) = Some l ->
  held (w_locks w) l = false ->
  let evs := events_of (run_async reload_package pkg_name) w in
  (exists mid, evs = EAcquire l true :: mid ++ [ERelease l])
  /\ (forall l' b, EAcquire l' b ∈ evs -> l' = l)
  /\ (forall l', ERelease l' ∈ evs -> l' = l)
  /\ w_locks (run_async reload_package pkg_name w).1 = <[l:=false]> (w_locks w).
Proof.
  intros Hl Hfree. cbn zeta.
  destruct (reload_package pkg_name (settings_get (w_settings w) "verbose")
              (w_interp w)) as [i r] eqn:Hrp.
  rewrite (run_async_acquired_events _ _ _ _ _ _ Hl Hfree Hrp).
  rewrite (run_async_acquired _ _ _ _ _ _ Hl Hfree Hrp). cbn [fst w_locks].
  split; [apply acquired_events_shape |].
  unfold acquired_events, outcome_events, success_events, failure_events,
    console_events.
  repeat split; try reflexivity; intros;
    match goal with H : _ ∈ _ |- _ => apply list_elem_of_In in H; rename H into Hin end;
    (destruct (negb (bool_decide (active_panel (w_window w) = Some "console"))
               && Py.truthy (settings_get (w_settings w) "open_console"));
     (destruct r as [e|];
      [ destruct (Py.isinstance_Exception e);
        [ destruct (Py.truthy (settings_get (w_settings w) "open_console_on_failure")) | ]
      | destruct (Py.truthy (settings_get (w_settings w) "close_console_on_success")) ]));
    simpl in Hin;
    repeat match goal with
           | H : _ \/ _ |- _ => destruct H
           | H : False |- _ => destruct H
           | H : EAcquire _ _ = EAcquire _ _ |- _ => by injection H
           | H : ERelease _ = ERelease _ |- _ => by injection H
           | H : _ = EAcquire _ _ |- _ => discriminate H
           | H : _ = ERelease _ |- _ => discriminate H
           end.
Qed.

(** C5. The reload lock is constructed once and never again.  The first
    execution of the module body, with [reload_lock] unbound, constructs one
    lock [l] that did not exist and binds the name to it; executing the body
    again, any number of times, changes nothing.  [run_async] reads the
    global once, before acquiring: whatever [reload_package] does to the
    global, the only lock acquired and released is [l], and the locks are
    afterwards exactly as before.  When the reload re-executes this module's
    body in its namespace (reloading the reloader itself), the global is
    still bound to [l] afterwards and the locks are the same: the lock is
    neither lost nor duplicated. *)
Theorem reload_lock_singleton (pkg_name : string) (w0 : World) (n k : nat)
    (mods : gmap string nat) (r : option Py.exc) :
  reload_lock (w_interp w0) = None ->
  let w := exec_module_body w0 in
  exists l,
    w_locks w0 !! l = None
    /\ reload_lock (w_interp w) = Some l
    /\ w_locks w = <[l:=false]> (w_locks w0)
    /\ Nat.iter n exec_module_body w = w
    /\ (let evs := events_of (run_async reload_package pkg_name) w in
        (exists mid, evs = EAcquire l true :: mid ++ [ERelease l])
        /\ (forall l' b, EAcquire l' b ∈ evs -> l' = l)
        /\ (forall l', ERelease l' ∈ evs -> l' = l)
        /\ w_locks (run_async reload_package pkg_name w).1 = w_locks w)
    /\ (let w' :=
          (run_async (reload_reexecuting (<[l:=true]> (w_locks w)) k mods r)
             pkg_name w).1 in
        reload_lock (w_interp w') = Some l
        /\ w_locks w' = w_locks w
        /\ Nat.iter n exec_module_body w' = w').
Proof.
  intros Hunbound. cbn zeta.
  assert (Hw : exec_module_body w0
    = set_locks (<[fresh (dom (w_locks w0)):=false]> (w_locks w0))
        (set_interp {| sys_modules := sys_modules (w_interp w0);
                       reload_lock := Some (fresh (dom (w_locks w0))) |} w0)).
  { unfold exec_module_body. by rewrite Hunbound. }
  set (l := fresh (dom (w_locks w0))) in *.
  set (w := exec_module_body w0) in *.
  assert (Hl : reload_lock (w_interp w) = Some l)
    by (rewrite Hw; by autorewrite with world).
  assert (Hlocks : w_locks w = <[l:=false]> (w_locks w0))
    by (rewrite Hw; by autorewrite with world).
  assert (Hfree : held (w_locks w) l = false)
    by (rewrite Hlocks; apply held_insert).
  assert (Hsame : <[l:=false]> (w_locks w) = w_locks w)
    by (rewrite Hlocks; apply insert_insert_eq).
  exists l.
  split; [apply not_elem_of_dom, is_fresh |].
  split; [exact Hl |]. split; [exact Hlocks |].
  split; [by apply exec_module_body_iter_bound with l |].
  split.
  { destruct (run_async_lock_events pkg_name w l Hl Hfree)
      as (Hshape & Hacq & Hrel & Hafter).
    repeat split; try assumption. by rewrite Hafter. }
  assert (Hrp : reload_reexecuting (<[l:=true]> (w_locks w)) k mods r pkg_name
                  (settings_get (w_settings w) "verbose") (w_interp w)
                = ({| sys_modules := mods; reload_lock := Some l |}, r)).
  { unfold reload_reexecuting. by rewrite Hl, iter_module_body_bound. }
  rewrite (run_async_acquired _ _ _ _ _ _ Hl Hfree Hrp).
  cbn [fst w_interp w_locks reload_lock].
  split; [reflexivity |]. split; [exact Hsame |].
  by apply exec_module_body_iter_bound with l.
Qed.

(** C4, as amended.  In a reload that acquires the lock the progress
    indicator is started right after the acquisition, it is running before
    and after the call of [reload_package] (the Unloading and Reimporting
    states), and [progress_bar.stop()] is executed whether [reload_package]
    returned or raised: the trace ends with the stop and the release, and the
    indicator is not running at the end. *)
Theorem progress_runs_during_reload (pkg_name : string) (w : World) (l : lock_id) :
  reload_lock (w_interp w) = Some l ->
  held (w_locks w) l = false ->
  let evs := events_of (run_async reload_package pkg_name) w in
  (exists rest,
     evs = EAcquire l true :: EProgressStart ("Reloading " +:+ pkg_name) :: rest)
  /\ (forall k pkg v, evs !! k = Some (EReloadPackage pkg v) ->
        progress_running (take k evs) = true
        /\ progress_running (take (S k) evs) = true)
  /\ (exists before,
        evs = before ++ [EProgressStop ("Reloading " +:+ pkg_name); ERelease l])
  /\ progress_running evs = false.
Proof.
  intros Hl Hfree. cbn zeta.
  destruct (reload_package pkg_name (settings_get (w_settings w) "verbose")
              (w_interp w)) as [i r] eqn:Hrp.
  rewrite (run_async_acquired_events _ _ _ _ _ _ Hl Hfree Hrp).
  assert (Hshape : acquired_events pkg_name w l r
    = ([EAcquire l true; EProgressStart ("Reloading " +:+ pkg_name)]
       ++ console_events w
       ++ [EReloadPackage pkg_name (settings_get (w_settings w) "verbose")]
       ++ outcome_events pkg_name w r)
      ++ [EProgressStop ("Reloading " +:+ pkg_name); ERelease l]).
  { unfold acquired_events. by repeat rewrite <- app_assoc. }
  split; [eexists; reflexivity |].
  split; [| split; [eexists; exact Hshape
                   | rewrite Hshape; apply progress_running_stopped]].
  unfold acquired_events, outcome_events, success_events, failure_events,
    console_events.
  intros k pkg v.
  destruct (negb (bool_decide (active_panel (w_window w) = Some "console"))
            && Py.truthy (settings_get (w_settings w) "open_console"));
    (destruct r as [e|];
     [ destruct (Py.isinstance_Exception e);
       [ destruct (Py.truthy (settings_get (w_settings w) "open_console_on_failure")) | ]
     | destruct (Py.truthy (settings_get (w_settings w) "close_console_on_success")) ]);
    cbn [app];
    do 9 (destruct k as [|k]; [cbn; try discriminate; intros _; by split |]);
    cbn; discriminate.
Qed.

(** C7, as amended.  A reload that acquires the lock ends with a status
    message naming the package when [reload_package] returns (the success
    message) and when it raises an instance of [Exception] (the failure
    message); whatever it raises is raised again by [run_async]; for an
    exception outside [Exception] no status message is emitted. *)
Theorem run_async_final_status (pkg_name : string) (w : World) (l : lock_id)
    (i : Interp) (r : option Py.exc) :
  reload_lock (w_interp w) = Some l ->
  held (w_locks w) l = false ->
  reload_package pkg_name (settings_get (w_settings w) "verbose") (w_interp w)
    = (i, r) ->
  let evs := events_of (run_async reload_package pkg_name) w in
  let res := (run_async reload_package pkg_name w).2 in
  match r with
  | None =>
      res = inr ()
      /\ final_status evs = Some (pkg_name +:+ " reloaded.")
      /\ status_names_package pkg_name evs
  | Some e =>
      res = inl e
      /\ if Py.isinstance_Exception e
         then final_status evs = Some ("Fail to reload " +:+ pkg_name +:+ ".")
              /\ status_names_package pkg_name evs
         else final_status evs = None
  end.
Proof.
  intros Hl Hfree Hrp. cbn zeta.
  rewrite (run_async_acquired_events _ _ _ _ _ _ Hl Hfree Hrp).
  rewrite (run_async_acquired _ _ _ _ _ _ Hl Hfree Hrp). cbn [snd].
  unfold status_names_package, acquired_events, outcome_events, success_events,
    failure_events, console_events.
  destruct (negb (bool_decide (active_panel (w_window w) = Some "console"))
            && Py.truthy (settings_get (w_settings w) "open_console"));
    (destruct r as [e|];
     [ destruct (Py.isinstance_Exception e);
       [ destruct (Py.truthy (settings_get (w_settings w) "open_console_on_failure")) | ]
     | destruct (Py.truthy (settings_get (w_settings w) "close_console_on_success")) ]);
    cbn [app outcome_result final_status foldl];
    repeat split; try reflexivity;
    eexists; (split; [reflexivity |]);
    first [apply names_package_reloaded | apply names_package_fail].
Qed.

End RunAsyncTrace.

(** ** Witnesses and counterexamples for [run_async] *)

Lemma run_async_busy_witness :
  reload_lock (w_interp busy_world) = Some 0
  /\ held (w_locks busy_world) 0 = true
  /\ events_of (run_async reload_ok "demo") busy_world
     = [EAcquire 0 false; EPrint "Reloader is running."].
Proof.
  split; [reflexivity |]. split; [vm_compute; reflexivity |].
  apply (run_async_busy reload_ok "demo" busy_world 0); vm_compute; reflexivity.
Defined.

Lemma run_async_releases_lock_witness :
  reload_lock (w_interp demo_world) = Some 0
  /\ held (w_locks demo_world) 0 = false
  /\ held (w_locks (run_async (reload_raising false) "demo" demo_world).1) 0 = false.
Proof.
  split; [reflexivity |]. split; [vm_compute; reflexivity |].
  apply (run_async_releases_lock (reload_raising false) "demo" demo_world 0);
    vm_compute; reflexivity.
Defined.

Lemma run_async_reraises_witness :
  reload_lock (w_interp demo_world) = Some 0
  /\ held (w_locks demo_world) 0 = false
  /\ (run_async (reload_raising false) "demo" demo_world).2
     = inl (Py.Raised false 7).
Proof.
  split; [reflexivity |]. split; [vm_compute; reflexivity |].
  apply (run_async_reraises (reload_raising false) "demo" demo_world 0
           {| sys_modules := delete "demo.util" (sys_modules (w_interp demo_world));
              reload_lock := Some 5 |}
           (Py.Raised false 7));
    vm_compute; reflexivity.
Defined.

Lemma reload_lock_singleton_witness :
  reload_lock (w_interp unimported_world) = None
  /\ exists l,
       w_locks unimported_world !! l = None
       /\ reload_lock (w_interp (exec_module_body unimported_world)) = Some l
       /\ reload_lock
            (w_interp
               (run_async
                  (reload_reexecuting
                     (<[l:=true]> (w_locks (exec_module_body unimported_world)))
                     2 ∅ (Some (Py.Raised true 7)))
                  "demo" (exec_module_body unimported_world)).1)
          = Some l.
Proof.
  split; [reflexivity |].
  destruct (reload_lock_singleton reload_ok "demo" unimported_world 3 2 ∅
              (Some (Py.Raised true 7)) eq_refl)
    as (l & Hnew & Hbound & _ & _ & _ & Hkept & _).
  exists l. split; [exact Hnew |]. split; [exact Hbound | exact Hkept].
Defined.

Lemma progress_runs_during_reload_witness :
  reload_lock (w_interp demo_world) = Some 0
  /\ held (w_locks demo_world) 0 = false
  /\ progress_running (events_of (run_async reload_ok "demo") demo_world) = false.
Proof.
  split; [reflexivity |]. split; [vm_compute; reflexivity |].
  apply (progress_runs_during_reload reload_ok "demo" demo_world 0);
    vm_compute; reflexivity.
Defined.

Lemma run_async_final_status_witness :
  reload_lock (w_interp demo_world) = Some 0
  /\ held (w_locks demo_world) 0 = false
  /\ final_status (events_of (run_async reload_ok "demo") demo_world)
     = Some "demo reloaded.".
Proof.
  split; [reflexivity |]. split; [vm_compute; reflexivity |].
  apply (run_async_final_status reload_ok "demo" demo_world 0
           (w_interp demo_world) None);
    vm_compute; reflexivity.
Defined.

(** C4 as stated fails: when the lock is attempted (the Locking state) the
    progress indicator has not been started. *)
Lemma progress_not_running_while_locking :
  events_of (run_async reload_ok "demo") demo_world !! 0 = Some (EAcquire 0 true)
  /\ ~ running_throughout (events_of (run_async reload_ok "demo") demo_world).
Proof.
  split; [vm_compute; reflexivity |].
  intros Hrun. specialize (Hrun 0 (EAcquire 0 true)).
  vm_compute in Hrun. discriminate (Hrun eq_refl eq_refl).
Qed.

(** C7 as stated fails: a module body raising outside [Exception] (a
    [SystemExit], say) makes the reload fail with no status message at all. *)
Lemma no_failure_message_outside_Exception :
  reload_raising false "demo" (settings_get (w_settings demo_world) "verbose")
    (w_interp demo_world)
  = ({| sys_modules := delete "demo.util" (sys_modules (w_interp demo_world));
        reload_lock := Some 5 |}, Some (Py.Raised false 7))
  /\ (run_async (reload_raising false) "demo" demo_world).2 = inl (Py.Raised false 7)
  /\ final_status (events_of (run_async (reload_raising false) "demo") demo_world)
     = None
  /\ ~ status_names_package "demo"
         (events_of (run_async (reload_raising false) "demo") demo_world).
Proof.
  split; [reflexivity |]. split; [vm_compute; reflexivity |].
  assert (Hnone : final_status
            (events_of (run_async (reload_raising false) "demo") demo_world) = None)
    by (vm_compute; reflexivity).
  split; [exact Hnone |].
  intros [msg [Hmsg _]]. rewrite Hnone in Hmsg. discriminate.
Qed.

(** ** Facts about Python strings and [os.path.join] *)

Lemma string_app_cons (x : ascii) (a b : string) :
  String x a +:+ b = String x (a +:+ b).
Proof. reflexivity. Qed.

Lemma string_app_assoc (a b c : string) : (a +:+ b) +:+ c = a +:+ b +:+ c.
Proof.
  induction a as [|x a IH]; [reflexivity |].
  by rewrite !string_app_cons, IH.
Qed.

Lemma startswith_spec (s pre : string) :
  Py.startswith s pre = true <-> exists rest, s = pre +:+ rest.
Proof.
  unfold Py.startswith. revert s.
  induction pre as [|a pre IH]; intros s.
  - split; [intros _; by exists s | intros _; by destruct s].
  - destruct s as [|b s]; cbn [String.prefix].
    + split; [discriminate |].
      intros [rest Hrest]. rewrite string_app_cons in Hrest. discriminate.
    + destruct (ascii_dec a b) as [->|Hne].
      * rewrite IH. split; intros [rest Hrest]; exists rest;
          rewrite string_app_cons in *; congruence.
      * split; [discriminate |].
        intros [rest Hrest]. rewrite string_app_cons in Hrest. congruence.
Qed.

Lemma slice_from_app (a b : string) :
  Py.slice_from (String.length a) (a +:+ b) = b.
Proof.
  induction a as [|x a IH]; [by destruct b |].
  rewrite string_app_cons. exact IH.
Qed.

Lemma str_truthy_app (a b : string) :
  Py.str_truthy a = true -> Py.str_truthy (a +:+ b) = true.
Proof. by destruct a. Qed.

Lemma startswith_truthy (s pre : string) :
  Py.str_truthy pre = true -> Py.startswith s pre = true -> Py.str_truthy s = true.
Proof.
  intros Hpre [rest ->]%startswith_spec. by apply str_truthy_app.
Qed.

(** What is cut off after a directory starts with the separator. *)
Lemma slice_after_dir_truthy (p dir sep : string) :
  Py.str_truthy sep = true ->
  Py.startswith p (dir +:+ sep) = true ->
  Py.str_truthy (Py.slice_from (String.length dir) p) = true.
Proof.
  intros Hsep [rest ->]%startswith_spec.
  rewrite string_app_assoc, slice_from_app. by apply str_truthy_app.
Qed.

Lemma endswith_truthy (s suf : string) :
  Py.str_truthy suf = true -> Py.endswith s suf = true -> Py.str_truthy s = true.
Proof.
  unfold Py.endswith. intros Hsuf [Hlen _]%andb_prop.
  apply Nat.leb_le in Hlen. destruct s; [| reflexivity].
  destruct suf; [discriminate | simpl in Hlen; lia].
Qed.

Lemma join2_truthy (path b : string) :
  Py.str_truthy path = true -> Py.str_truthy (OsPath.join2 path b) = true.
Proof.
  intros Hpath. unfold OsPath.join2.
  destruct (Py.startswith b "/") eqn:Hb.
  - by apply startswith_truthy with "/".
  - destruct (negb (Py.str_truthy path) || Py.endswith path "/");
      by apply str_truthy_app.
Qed.

Lemma first_some_Some {A B : Type} (f : A -> option B) (l : list A) (y : B) :
  first_some f l = Some y -> exists x, x ∈ l /\ f x = Some y.
Proof.
  induction l as [|x l IH]; simpl; [discriminate |].
  destruct (f x) as [y'|] eqn:Hfx.
  - intros [= <-]. exists x. split; [apply list_elem_of_here | exact Hfx].
  - intros (x' & Hin & Hx')%IH. exists x'.
    split; [by apply list_elem_of_further | exact Hx'].
Qed.

Lemma first_some_None {A B : Type} (f : A -> option B) (l : list A) :
  first_some f l = None <-> forall x, x ∈ l -> f x = None.
Proof.
  induction l as [|x l IH]; simpl.
  - split; [intros _ x Hin; by apply not_elem_of_nil in Hin | reflexivity].
  - destruct (f x) as [y|] eqn:Hfx.
    + split; [discriminate |]. intros Hall.
      specialize (Hall x (list_elem_of_here _ _)). congruence.
    + rewrite IH. split.
      * intros Hall x' [-> | Hin]%elem_of_cons; auto.
      * intros Hall x' Hin. apply Hall. by apply list_elem_of_further.
Qed.

(** ** What [relative_to_spp] decides *)

Lemma lies_under_startswith (sep dir path : string) :
  lies_under sep dir path <-> Py.startswith path (dir +:+ sep) = true.
Proof.
  unfold lies_under. rewrite startswith_spec.
  split; intros [rest ->]; exists rest; by rewrite string_app_assoc.
Qed.

Lemma first_some_not_None {A B : Type} (f : A -> option B) (l : list A) :
  first_some f l <> None <-> exists x, x ∈ l /\ f x <> None.
Proof.
  split.
  - destruct (first_some f l) as [y|] eqn:Hfs; [intros _ | done].
    apply first_some_Some in Hfs as (x & Hin & Hx).
    exists x. split; [exact Hin | congruence].
  - intros (x & Hin & Hx) Hnone.
    apply Hx. by apply (proj1 (first_some_None f l) Hnone).
Qed.

Lemma via_symlink_not_None (h : Host) (spp path name : string) :
  via_symlink h spp path name <> None
  <-> islink h (OsPath.join spp [name]) = true
      /\ isdir h (OsPath.join spp [name]) = true
      /\ lies_under "/" (readlink h (OsPath.join spp [name])) path.
Proof.
  unfold via_symlink. rewrite lies_under_startswith.
  destruct (islink h (OsPath.join spp [name])),
    (isdir h (OsPath.join spp [name]));
    cbn [andb negb]; try (split; [done | intros (? & ? & ?); discriminate]).
  destruct (Py.startswith path (readlink h (OsPath.join spp [name]) +:+ "/"));
    split; try done. intros (_ & _ & ?). discriminate.
Qed.

Lemma relative_to_spp_windows_iff (h : Host) (path : string) :
  relative_to_spp_windows h path <> None
  <-> exists p sp,
        p ∈ [path; casedpath h (realpath h path)]
        /\ sp ∈ [packages_path h; casedpath h (realpath h (packages_path h))]
        /\ lies_under (String OsPath.nt_sep "") sp p.
Proof.
  unfold relative_to_spp_windows. cbn zeta. rewrite first_some_not_None.
  split.
  - intros (p & Hp & (sp & Hsp & Hif)%first_some_not_None).
    exists p, sp. split; [exact Hp |]. split; [exact Hsp |].
    apply lies_under_startswith.
    by destruct (Py.startswith p (sp +:+ String OsPath.nt_sep "")).
  - intros (p & sp & Hp & Hsp & Hunder%lies_under_startswith).
    exists p. split; [exact Hp |]. apply first_some_not_None.
    exists sp. split; [exact Hsp |]. by rewrite Hunder.
Qed.

Lemma relative_to_spp_posix_iff (h : Host) (path : string) :
  relative_to_spp_posix h path <> None
  <-> lies_under "/" (realpath h (packages_path h)) path
      \/ exists name,
           symlinked_package_dir h (realpath h (packages_path h)) name
           /\ lies_under "/"
                (readlink h (OsPath.join (realpath h (packages_path h)) [name]))
                path.
Proof.
  unfold relative_to_spp_posix, symlinked_package_dir. cbn zeta.
  rewrite (lies_under_startswith "/" (realpath h (packages_path h)) path).
  destruct (Py.startswith path (realpath h (packages_path h) +:+ "/")).
  - split; [by left | done].
  - rewrite first_some_not_None. split.
    + intros (name & Hin & (Hl & Hd & Hu)%via_symlink_not_None).
      right. by exists name.
    + intros [Hfalse | (name & (Hin & Hl & Hd) & Hu)]; [discriminate |].
      exists name. split; [exact Hin |]. by apply via_symlink_not_None.
Qed.

(** The tests [relative_to_spp] makes: it returns a path exactly when one of
    its prefix tests succeeds, on Windows against [sublime.packages_path()]
    and its case-normalized real path, on Linux and macOS against the real
    path of [sublime.packages_path()] and the [readlink] texts of the
    symlinked directory entries of it. *)
Lemma relative_to_spp_iff (h : Host) (path : string) :
  (relative_to_spp h path <> None
   <-> under_search_location h (resolved_packages_path h) path)
  /\ (relative_to_spp h path = None
      <-> ~ under_search_location h (resolved_packages_path h) path).
Proof.
  assert (Hiff : relative_to_spp h path <> None
                 <-> under_search_location h (resolved_packages_path h) path).
  { unfold relative_to_spp, under_search_location, resolved_packages_path.
    destruct (is_windows h).
    - apply relative_to_spp_windows_iff.
    - apply relative_to_spp_posix_iff. }
  split; [exact Hiff |].
  rewrite <- Hiff. destruct (relative_to_spp h path) as [r|].
  - split; [discriminate |]. intros Hnn. by destruct Hnn.
  - split; [| reflexivity]. intros _ Hnn. by apply Hnn.
Qed.

(** The Windows definition recognises every path under
    [sublime.packages_path()] as given, resolved or not. *)
Lemma relative_to_spp_windows_given_path (h : Host) (path : string) :
  is_windows h = true ->
  lies_under (String OsPath.nt_sep "") (packages_path h) path ->
  relative_to_spp h path <> None.
Proof.
  intros Hwin Hunder. unfold relative_to_spp. rewrite Hwin.
  apply relative_to_spp_windows_iff.
  exists path, (packages_path h).
  split; [apply list_elem_of_here |]. split; [apply list_elem_of_here | exact Hunder].
Qed.

(** C6. On Linux and macOS [relative_to_spp] returns [None] for paths that
    lie under the package search location.  With the packages path reached
    through a symlinked directory, a file lying directly under
    [sublime.packages_path()] as given is not recognised, because the path is
    compared with the resolved packages path only (the Windows definition
    compares with both).  And a file in the directory that a package symlink
    stands for is not recognised when the symlink's text is relative,
    because the path is compared with the text [os.readlink] returns. *)
Lemma relative_to_spp_misses_unresolved_path :
  (is_windows symlinked_config_host = false
   /\ lies_under "/" (packages_path symlinked_config_host)
        "/home/u/st/Packages/Foo/a.py"
   /\ relative_to_spp symlinked_config_host "/home/u/st/Packages/Foo/a.py" = None)
  /\ (is_windows relative_link_host = false
      /\ symlinked_package_dir relative_link_host
           (realpath relative_link_host (packages_path relative_link_host))
           "Linked"
      /\ lies_under "/"
           (realpath relative_link_host
              (OsPath.join
                 (realpath relative_link_host (packages_path relative_link_host))
                 ["Linked"]))
           "/st/src/linked/a.py"
      /\ relative_to_spp relative_link_host "/st/src/linked/a.py" = None).
Proof.
  split.
  - split; [reflexivity |]. split; [by exists "Foo/a.py" | vm_compute; reflexivity].
  - split; [reflexivity |]. split.
    + split; [vm_compute; apply list_elem_of_here | split; reflexivity].
    + split; [by exists "a.py" | vm_compute; reflexivity].
Qed.

(** ** [on_post_save] and [run] *)

(** Whatever [relative_to_spp] returns is a non-empty string, so testing its
    truth value is testing it against [None]. *)
Lemma relative_to_spp_truthy (h : Host) (path r : string) :
  relative_to_spp h path = Some r -> Py.str_truthy r = true.
Proof.
  unfold relative_to_spp. destruct (is_windows h).
  - unfold relative_to_spp_windows. cbn zeta.
    intros (p & _ & (sp & _ & Hif)%first_some_Some)%first_some_Some.
    destruct (Py.startswith p (sp +:+ String OsPath.nt_sep "")) eqn:Hstart;
      [| discriminate].
    injection Hif as <-.
    by apply slice_after_dir_truthy with (String OsPath.nt_sep "").
  - unfold relative_to_spp_posix. cbn zeta.
    destruct (Py.startswith path (realpath h (packages_path h) +:+ "/")) eqn:Hstart.
    + intros [= <-]. by apply slice_after_dir_truthy with "/".
    + intros (name & _ & Hvia)%first_some_Some. revert Hvia.
      unfold via_symlink. cbn zeta.
      destruct (negb (islink h _ && isdir h _)); [discriminate |].
      destruct (Py.startswith path (readlink h _ +:+ "/")); [| discriminate].
      intros [= <-]. unfold OsPath.join. cbn [foldl].
      by do 2 apply join2_truthy.
Qed.

Lemma opt_truthy_relative_to_spp (h : Host) (path : string) :
  Py.opt_truthy (relative_to_spp h path) = true <-> relative_to_spp h path <> None.
Proof.
  destruct (relative_to_spp h path) as [r|] eqn:Hr; cbn [Py.opt_truthy].
  - rewrite (relative_to_spp_truthy h path r Hr). by split.
  - by split.
Qed.

Section Triggers.

Variable h : Host.
Variable reload_package : string -> Py.value -> Interp -> Interp * option Py.exc.

(** C9. Saving a view triggers the reload command exactly when the view is
    neither scratch nor a widget, its file has a name ending in [.py] that
    [relative_to_spp] maps to a location (not [None]), and the setting
    [reload_on_save] is on. *)
Theorem on_post_save_triggers_iff (view : View) (w : World) :
  reload_triggered h view w
  <-> is_scratch view = false
      /\ Py.truthy (settings_get (view_settings view) "is_widget") = false
      /\ (exists name, file_name view = Some name
                       /\ Py.endswith name ".py" = true
                       /\ relative_to_spp h name <> None)
      /\ Py.truthy (settings_get (w_settings w) "reload_on_save") = true.
Proof.
  unfold reload_triggered, on_post_save.
  assert (Hnone : EWindowCommand "package_reloader_reload" []
                    ∈ events_of (pass : M unit) w -> False).
  { rewrite (events_of_app pass w []); [apply not_elem_of_nil |].
    cbn. by rewrite app_nil_r. }
  destruct (is_scratch view); cbn [orb].
  { split; [by intros ?%Hnone | intros (? & _); discriminate]. }
  destruct (Py.truthy (settings_get (view_settings view) "is_widget")).
  { split; [by intros ?%Hnone | intros (_ & ? & _); discriminate]. }
  destruct (file_name view) as [name|].
  2: { split; [by intros ?%Hnone |]. intros (_ & _ & (n & ? & _) & _). discriminate. }
  destruct (Py.endswith name ".py") eqn:Hpy.
  2: { rewrite andb_false_r. cbn [andb].
       split; [by intros ?%Hnone |].
       intros (_ & _ & (n & [= <-] & ? & _) & _). congruence. }
  rewrite (endswith_truthy name ".py" eq_refl Hpy). cbn [andb].
  destruct (Py.opt_truthy (relative_to_spp h name)) eqn:Hrel.
  2: { split; [by intros ?%Hnone |].
       intros (_ & _ & (n & [= <-] & _ & Hnn) & _).
       apply opt_truthy_relative_to_spp in Hnn. congruence. }
  apply opt_truthy_relative_to_spp in Hrel.
  clear Hnone. unfold events_of, mbind, M_bind, load_settings. cbn beta iota.
  destruct (Py.truthy (settings_get (w_settings w) "reload_on_save")).
  - unfold window_run_command, emit. cbn [fst]. autorewrite with world.
    rewrite drop_app_length. split; [| intros _; apply list_elem_of_here].
    intros _. repeat split. by exists name.
  - unfold pass, mret, M_ret. cbn [fst]. rewrite drop_all.
    split; [by intros ?%not_elem_of_nil | intros (_ & _ & _ & ?); discriminate].
Qed.

Lemma current_package_name_undetected (win : Window) :
  (active_view win ≫= file_name) ≫= relative_to_spp h = None ->
  Forall (fun folder => relative_to_spp h folder = None) (folders win) ->
  current_package_name h win = inr None.
Proof.
  intros Hview Hfolders.
  assert (Hpf : package_of_folders h win = None).
  { unfold package_of_folders.
    destruct (folders win) as [|folder rest]; [reflexivity |].
    apply Forall_cons in Hfolders as [-> _]. reflexivity. }
  unfold current_package_name.
  destruct (active_view win ≫= file_name) as [name|]; cbn in Hview;
    [| by rewrite Hpf].
  rewrite Hview, Hpf. by destruct (Py.str_truthy name).
Qed.

(** C10. Called without a package name when none can be detected (the file
    of the active view, if any, is not under the package path, and no window
    folder is), [run] prints the message and returns: no thread is started,
    no lock is attempted and neither the locks nor [sys.modules] change. *)
Theorem run_cannot_detect (w : World) :
  (active_view (w_window w) ≫= file_name) ≫= relative_to_spp h = None ->
  Forall (fun folder => relative_to_spp h folder = None) (folders (w_window w)) ->
  let w' := (run h None w).1 in
  (run h None w).2 = inr ()
  /\ events_of (run h None) w = [EPrint "Cannot detect package name."]
  /\ w_threads w' = w_threads w
  /\ w_locks w' = w_locks w
  /\ w_interp w' = w_interp w.
Proof.
  intros Hview Hfolders.
  assert (Hrun : run h None w
                 = (log (EPrint "Cannot detect package name.") w, inr ())).
  { unfold run, mbind, M_bind, get_current_package_name.
    rewrite bool_decide_eq_false_2 by discriminate.
    by rewrite (current_package_name_undetected _ Hview Hfolders). }
  cbn zeta. rewrite (events_of_app _ w [EPrint "Cannot detect package name."]);
    rewrite Hrun; cbn [fst snd]; autorewrite with world; by repeat split.
Qed.

(** C8. Called with a package name, given or detected, [run] starts one new
    thread named [AutomaticPackageReloader] whose target is [run_async] on
    that name, and does nothing else: the calling thread emits no event, so
    it attempts no lock and reloads nothing, whereas [run_async] always emits
    one; what the new thread executes is [run_async]. *)
Theorem run_starts_worker_thread (pkg_name : option string) (name : string)
    (w : World) :
  (pkg_name = Some name /\ name <> "<prompt>")
  \/ (pkg_name = None /\ current_package_name h (w_window w) = inr (Some name)) ->
  let w' := (run h pkg_name w).1 in
  (run h pkg_name w).2 = inr ()
  /\ w_threads w' = w_threads w ++ [worker_thread name]
  /\ thread_run reload_package (worker_thread name) = run_async reload_package name
  /\ events_of (run h pkg_name) w = []
  /\ w_locks w' = w_locks w
  /\ w_interp w' = w_interp w
  /\ (forall l, reload_lock (w_interp w) = Some l ->
        events_of (run_async reload_package name) w <> []).
Proof.
  intros Hname.
  assert (Hrun : run h pkg_name w = (add_thread (worker_thread name) w, inr ())).
  { unfold run, mbind, M_bind, get_current_package_name, thread_start.
    destruct Hname as [[-> Hne] | [-> Hdet]].
    - rewrite bool_decide_eq_false_2 by congruence. reflexivity.
    - rewrite bool_decide_eq_false_2 by discriminate. by rewrite Hdet. }
  cbn zeta. rewrite (events_of_app _ w []);
    rewrite Hrun; cbn [fst snd add_thread w_threads w_locks w_interp w_log];
    try (by rewrite app_nil_r).
  repeat split; try reflexivity.
  intros l Hl.
  destruct (held (w_locks w) l) eqn:Hheld.
  - rewrite (run_async_held_events reload_package name w l Hl Hheld).
    discriminate.
  - destruct (reload_package name (settings_get (w_settings w) "verbose")
                (w_interp w)) as [i r] eqn:Hrp.
    rewrite (run_async_acquired_events reload_package _ _ _ _ _ Hl Hheld Hrp).
    discriminate.
Qed.

End Triggers.

Lemma run_cannot_detect_witness :
  (active_view (w_window demo_world) ≫= file_name) ≫= relative_to_spp linux_host
    = None
  /\ Forall (fun folder => relative_to_spp linux_host folder = None)
       (folders (w_window demo_world))
  /\ events_of (run linux_host None) demo_world
     = [EPrint "Cannot detect package name."].
Proof.
  assert (Hview : (active_view (w_window demo_world) ≫= file_name)
                    ≫= relative_to_spp linux_host = None)
    by (vm_compute; reflexivity).
  assert (Hfolders : Forall (fun folder => relative_to_spp linux_host folder = None)
                       (folders (w_window demo_world)))
    by (repeat constructor).
  split; [exact Hview |]. split; [exact Hfolders |].
  apply (run_cannot_detect linux_host demo_world Hview Hfolders).
Defined.

Lemma run_starts_worker_thread_witness :
  ((Some "demo" = Some "demo" /\ "demo" <> "<prompt>")
   \/ (Some "demo" = None
       /\ current_package_name linux_host (w_window demo_world) = inr (Some "demo")))
  /\ w_threads (run linux_host (Some "demo") demo_world).1 = [worker_thread "demo"].
Proof.
  assert (Hname : (Some "demo" = Some "demo" /\ "demo" <> "<prompt>")
                  \/ (Some "demo" = None
                      /\ current_package_name linux_host (w_window demo_world)
                         = inr (Some "demo")))
    by (left; split; [reflexivity | discriminate]).
  split; [exact Hname |].
  apply (run_starts_worker_thread linux_host reload_ok (Some "demo") "demo"
           demo_world Hname).
Defined.

Example on_post_save_plain :
  reload_triggered linux_host plain_view demo_world.
Proof. unfold reload_triggered. vm_compute. apply list_elem_of_here. Qed.

Example run_detects_folder :
  current_package_name linux_host
    {| active_view := None; folders := ["/src/linked/sub"]; active_panel := None |}
  = inr (Some "sub").
Proof. reflexivity. Qed.

Example run_detects_plain :
  current_package_name linux_host
    {| active_view := Some plain_view; folders := []; active_panel := None |}
  = inr (Some "Plain").
Proof. reflexivity. Qed.

(** * Further properties of the commands *)

(** ** [run_async]: frame, console and exceptions *)

Lemma elem_of_console_events (w : World) (e : Event) :
  e ∈ console_events w
  <-> e = show_console
      /\ active_panel (w_window w) <> Some "console"
      /\ Py.truthy (settings_get (w_settings w) "open_console") = true.
Proof.
  unfold console_events.
  destruct (bool_decide (active_panel (w_window w) = Some "console")) eqn:Hopen;
    [apply bool_decide_eq_true in Hopen | apply bool_decide_eq_false in Hopen];
    destruct (Py.truthy (settings_get (w_settings w) "open_console"));
    cbn [negb andb]; rewrite ?list_elem_of_singleton, ?elem_of_nil;
    unfold show_console; intuition (try discriminate; try congruence).
Qed.

Lemma elem_of_outcome_events (pkg_name : string) (w : World)
    (r : option Py.exc) (e : Event) :
  e ∈ outcome_events pkg_name w r
  <-> match r with
      | None =>
          (e = hide_console
           /\ Py.truthy (settings_get (w_settings w) "close_console_on_success") = true)
          \/ e = EStatusMessage (pkg_name +:+ " reloaded.")
      | Some exn =>
          Py.isinstance_Exception exn = true
          /\ ((e = show_console
               /\ Py.truthy (settings_get (w_settings w) "open_console_on_failure") = true)
              \/ e = EStatusMessage ("Fail to reload " +:+ pkg_name +:+ "."))
      end.
Proof.
  unfold outcome_events, success_events, failure_events.
  destruct r as [exn|].
  - destruct (Py.isinstance_Exception exn);
      [| rewrite elem_of_nil; split; [done | by intros [? _]]].
    rewrite elem_of_app, list_elem_of_singleton.
    destruct (Py.truthy (settings_get (w_settings w) "open_console_on_failure"));
      rewrite ?list_elem_of_singleton, ?elem_of_nil;
      intuition (try discriminate; try congruence).
  - rewrite elem_of_app, list_elem_of_singleton.
    destruct (Py.truthy (settings_get (w_settings w) "close_console_on_success"));
      rewrite ?list_elem_of_singleton, ?elem_of_nil;
      intuition (try discriminate; try congruence).
Qed.

Lemma filter_reload_console_events (w : World) :
  filter (fun e => is_reload_call e = true) (console_events w) = [].
Proof.
  unfold console_events.
  by destruct (negb _ && _).
Qed.

Lemma filter_reload_outcome_events (pkg_name : string) (w : World)
    (r : option Py.exc) :
  filter (fun e => is_reload_call e = true) (outcome_events pkg_name w r) = [].
Proof.
  unfold outcome_events, success_events, failure_events.
  destruct r as [exn|].
  - destruct (Py.isinstance_Exception exn); [| reflexivity].
    by destruct (Py.truthy (settings_get (w_settings w) "open_console_on_failure")).
  - by destruct (Py.truthy (settings_get (w_settings w) "close_console_on_success")).
Qed.

Section RunAsyncMore.

Variable reload_package : string -> Py.value -> Interp -> Interp * option Py.exc.

(** With the global [reload_lock] unbound, [run_async] raises
    [NameError] at its first statement: nothing is logged, no lock is
    attempted and the world is as it was. *)
Lemma run_async_unbound_lock (pkg_name : string) (w : World) :
  reload_lock (w_interp w) = None ->
  run_async reload_package pkg_name w = (w, inl (Py.NameError "reload_lock")).
Proof.
  intros Hl. unfold run_async, mbind, M_bind, global_reload_lock.
  by rewrite Hl.
Qed.

(** X1. A [run_async] that acquires the lock calls [reload_package] exactly
    once, with its own package name and the value of the setting [verbose],
    whatever the other settings are and however the reload ends; and the
    interpreter state afterwards is the one [reload_package] left
    ([run_async] itself changes neither [sys.modules] nor the global). *)
Theorem run_async_calls_reload_once (pkg_name : string) (w : World) (l : lock_id)
    (i : Interp) (r : option Py.exc) :
  reload_lock (w_interp w) = Some l ->
  held (w_locks w) l = false ->
  reload_package pkg_name (settings_get (w_settings w) "verbose") (w_interp w)
    = (i, r) ->
  filter (fun e => is_reload_call e = true)
    (events_of (run_async reload_package pkg_name) w)
  = [EReloadPackage pkg_name (settings_get (w_settings w) "verbose")]
  /\ w_interp (run_async reload_package pkg_name w).1 = i.
Proof.
  intros Hl Hfree Hrp.
  rewrite (run_async_acquired_events _ _ _ _ _ _ Hl Hfree Hrp).
  rewrite (run_async_acquired _ _ _ _ _ _ Hl Hfree Hrp).
  cbn [fst w_interp]. split; [| reflexivity].
  unfold acquired_events.
  rewrite !filter_app, filter_reload_console_events,
    filter_reload_outcome_events.
  reflexivity.
Qed.

(** X2. Which console commands an acquiring [run_async] sends: [show_panel]
    before the reload exactly when the console is not the active panel and
    [open_console] is set, or after a failure with an instance of [Exception]
    when [open_console_on_failure] is set; [hide_panel] exactly after a
    successful reload when [close_console_on_success] is set. *)
Theorem run_async_console_commands (pkg_name : string) (w : World) (l : lock_id)
    (i : Interp) (r : option Py.exc) :
  reload_lock (w_interp w) = Some l ->
  held (w_locks w) l = false ->
  reload_package pkg_name (settings_get (w_settings w) "verbose") (w_interp w)
    = (i, r) ->
  let evs := events_of (run_async reload_package pkg_name) w in
  (show_console ∈ evs
   <-> (active_panel (w_window w) <> Some "console"
        /\ Py.truthy (settings_get (w_settings w) "open_console") = true)
       \/ (exists e, r = Some e
                     /\ Py.isinstance_Exception e = true
                     /\ Py.truthy (settings_get (w_settings w)
                                     "open_console_on_failure") = true))
  /\ (hide_console ∈ evs
      <-> r = None
          /\ Py.truthy (settings_get (w_settings w) "close_console_on_success")
             = true).
Proof.
  intros Hl Hfree Hrp. cbn zeta.
  rewrite (run_async_acquired_events _ _ _ _ _ _ Hl Hfree Hrp).
  unfold acquired_events.
  rewrite !elem_of_app, !elem_of_cons, !elem_of_nil,
    !elem_of_console_events, !elem_of_outcome_events.
  unfold show_console, hide_console, console_panel.
  destruct r as [e|]; (split; split; intros H).
  all: repeat match goal with
              | H : _ \/ _ |- _ => destruct H
              | H : _ /\ _ |- _ => destruct H
              | H : ex _ |- _ => destruct H
              | H : False |- _ => destruct H
              | H : Some _ = Some _ |- _ => injection H as ->
              | H : EWindowCommand _ _ = _ |- _ => discriminate H
              | H : Some _ = None |- _ => discriminate H
              | H : None = Some _ |- _ => discriminate H
              end.
  all: eauto 8.
Qed.

(** X3. With [reload_lock] bound, [run_async] raises only what
    [reload_package] raised: it ends with exception [e] exactly when it
    acquired the lock and [reload_package] raised [e]; rejected as busy, or
    after a [reload_package] that returned, it returns normally. *)
Theorem run_async_raises_iff (pkg_name : string) (w : World) (l : lock_id)
    (e : Py.exc) :
  reload_lock (w_interp w) = Some l ->
  (run_async reload_package pkg_name w).2 = inl e
  <-> held (w_locks w) l = false
      /\ exists i,
           reload_package pkg_name (settings_get (w_settings w) "verbose")
             (w_interp w) = (i, Some e).
Proof.
  intros Hl. destruct (held (w_locks w) l) eqn:Hheld.
  - rewrite (run_async_held _ _ _ _ Hl Hheld). cbn [snd].
    split; [discriminate | by intros [? _]].
  - destruct (reload_package pkg_name (settings_get (w_settings w) "verbose")
                (w_interp w)) as [i r] eqn:Hrp.
    rewrite (run_async_acquired _ _ _ _ _ _ Hl Hheld Hrp). cbn [snd].
    destruct r as [e'|]; cbn [outcome_result].
    + split.
      * intros [= ->]. split; [reflexivity | by exists i].
      * intros (_ & i' & [= _ ->]). reflexivity.
    + split; [discriminate | intros (_ & i' & ?); discriminate].
Qed.

(** X4. The lock is reusable: once a reload is over, whether it succeeded or
    failed, the next [run_async] is not rejected as busy but acquires the
    same lock, provided [reload_package] left the global [reload_lock]
    bound to it. *)
Theorem run_async_again_not_busy (pkg_name next_pkg : string) (w : World)
    (l : lock_id) (i : Interp) (r : option Py.exc) :
  reload_lock (w_interp w) = Some l ->
  held (w_locks w) l = false ->
  reload_package pkg_name (settings_get (w_settings w) "verbose") (w_interp w)
    = (i, r) ->
  reload_lock i = Some l ->
  let w' := (run_async reload_package pkg_name w).1 in
  exists rest,
    events_of (run_async reload_package next_pkg) w'
    = EAcquire l true :: EProgressStart ("Reloading " +:+ next_pkg) :: rest.
Proof.
  intros Hl Hfree Hrp Hkept. cbn zeta.
  rewrite (run_async_acquired _ _ _ _ _ _ Hl Hfree Hrp). cbn [fst].
  set (w' := {| w_interp := i; w_locks := <[l:=false]> (w_locks w);
                w_settings := w_settings w; w_window := w_window w;
                w_threads := w_threads w;
                w_log := w_log w ++ acquired_events pkg_name w l r |}).
  destruct (reload_package next_pkg (settings_get (w_settings w') "verbose")
              (w_interp w')) as [i' r'] eqn:Hrp'.
  rewrite (run_async_acquired_events reload_package next_pkg w' l i' r').
  - eexists. reflexivity.
  - exact Hkept.
  - apply held_insert.
  - exact Hrp'.
Qed.

(** X5. The first import constructs a free lock of its own: executing the
    module body with [reload_lock] unbound binds the name to a lock that did
    not exist, leaves every existing lock as it was, and the first
    [run_async] afterwards acquires that lock rather than being rejected. *)
Theorem first_import_lock_is_free (pkg_name : string) (w : World) :
  reload_lock (w_interp w) = None ->
  let w' := exec_module_body w in
  exists l,
    reload_lock (w_interp w') = Some l
    /\ w_locks w !! l = None
    /\ held (w_locks w') l = false
    /\ (forall l', l' <> l -> w_locks w' !! l' = w_locks w !! l')
    /\ sys_modules (w_interp w') = sys_modules (w_interp w)
    /\ exists rest,
         events_of (run_async reload_package pkg_name) w'
         = EAcquire l true :: rest.
Proof.
  intros Hl. cbn zeta.
  assert (Hw' : exec_module_body w
    = set_locks (<[fresh (dom (w_locks w)):=false]> (w_locks w))
        (set_interp {| sys_modules := sys_modules (w_interp w);
                       reload_lock := Some (fresh (dom (w_locks w))) |} w)).
  { unfold exec_module_body. by rewrite Hl. }
  rewrite Hw'. exists (fresh (dom (w_locks w))).
  autorewrite with world. cbn [reload_lock sys_modules].
  split; [reflexivity |].
  split; [apply not_elem_of_dom, is_fresh |].
  split; [apply held_insert |].
  split; [intros l' Hne; by apply lookup_insert_ne |].
  split; [reflexivity |].
  set (w' := set_locks _ _).
  destruct (reload_package pkg_name (settings_get (w_settings w') "verbose")
              (w_interp w')) as [i r] eqn:Hrp.
  rewrite (run_async_acquired_events reload_package pkg_name w'
             (fresh (dom (w_locks w))) i r).
  - eexists. reflexivity.
  - unfold w'. by autorewrite with world.
  - unfold w'. autorewrite with world. apply held_insert.
  - exact Hrp.
Qed.

End RunAsyncMore.

(** ** More on Python strings *)

Lemma string_app_nil_r (s : string) : s +:+ "" = s.
Proof.
  induction s as [|x s IH]; [reflexivity |].
  by rewrite string_app_cons, IH.
Qed.

Lemma string_app_nil_l (s : string) : "" +:+ s = s.
Proof. reflexivity. Qed.

Lemma string_app_eq_nil (a b : string) : a +:+ b = "" -> a = "" /\ b = "".
Proof.
  destruct a; [rewrite string_app_nil_l; by intros -> |].
  rewrite string_app_cons. discriminate.
Qed.

Lemma contains_char_app (c : ascii) (a b : string) :
  contains_char c (a +:+ b) = contains_char c a || contains_char c b.
Proof.
  induction a as [|x a IH]; [reflexivity |].
  rewrite string_app_cons. cbn [contains_char]. by rewrite IH, orb_assoc.
Qed.

Lemma contains_char_here (c : ascii) (s : string) :
  contains_char c (String c s) = true.
Proof. cbn [contains_char]. by rewrite Ascii.eqb_refl. Qed.

(** Cutting [n] characters off [s] leaves a suffix of [s]. *)
Lemma slice_from_suffix (n : nat) (s : string) :
  exists pre, s = pre +:+ Py.slice_from n s
              /\ String.length pre = Nat.min n (String.length s).
Proof.
  revert s. induction n as [|n IH]; intros s.
  - exists "". by destruct s.
  - destruct s as [|x s]; [by exists "" |].
    destruct (IH s) as (pre & Hs & Hlen).
    exists (String x pre). cbn [Py.slice_from String.length].
    split; [by rewrite string_app_cons, <- Hs | by rewrite Hlen].
Qed.

Lemma endswith_spec (s suf : string) :
  Py.endswith s suf = true <-> exists pre, s = pre +:+ suf.
Proof.
  unfold Py.endswith. split.
  - intros [Hlen Heq]%andb_prop. apply String.eqb_eq in Heq.
    destruct (slice_from_suffix (String.length s - String.length suf) s)
      as (pre & Hs & _).
    exists pre. by rewrite <- Heq.
  - intros [pre ->]. rewrite string_length_app.
    apply andb_true_intro. split; [apply Nat.leb_le; lia |].
    replace (String.length pre + String.length suf - String.length suf)
      with (String.length pre) by lia.
    rewrite slice_from_app. apply String.eqb_refl.
Qed.

Lemma endswith_app (a b suf : string) :
  Py.endswith b suf = true -> Py.endswith (a +:+ b) suf = true.
Proof.
  rewrite !endswith_spec. intros [pre ->]. exists (a +:+ pre).
  by rewrite string_app_assoc.
Qed.

(** A suffix free of [c] of a string lies after every occurrence of [c]. *)
Lemma suffix_after_char (c : ascii) (a x pre suf : string) :
  contains_char c suf = false ->
  a +:+ String c x = pre +:+ suf ->
  exists pre', x = pre' +:+ suf.
Proof.
  intros Hfree. revert pre. induction a as [|z a IH]; intros pre Heq.
  - destruct pre as [|y pre].
    + rewrite !string_app_nil_l in Heq. subst suf.
      by rewrite contains_char_here in Hfree.
    + rewrite string_app_cons in Heq. injection Heq as _ Heq.
      exists pre. exact Heq.
  - rewrite string_app_cons in Heq. destruct pre as [|y pre].
    + rewrite string_app_nil_l in Heq. subst suf. cbn [contains_char] in Hfree.
      rewrite contains_char_app, contains_char_here, orb_true_r, orb_true_r
        in Hfree. discriminate.
    + rewrite string_app_cons in Heq. injection Heq as _ Heq.
      by apply IH with pre.
Qed.

Lemma endswith_after_char (c : ascii) (a x suf : string) :
  contains_char c suf = false ->
  Py.endswith (a +:+ String c x) suf = true ->
  Py.endswith x suf = true.
Proof.
  rewrite !endswith_spec. intros Hfree [pre Heq].
  by apply suffix_after_char with c a pre.
Qed.

(** A non-empty string free of [c] does not end in [c], whatever precedes. *)
Lemma not_endswith_char (c : ascii) (a name : string) :
  contains_char c name = false ->
  name <> "" ->
  Py.endswith (a +:+ name) (String c "") = false.
Proof.
  intros Hfree Hne. apply not_true_is_false. rewrite endswith_spec.
  intros [pre Heq]. revert pre Heq.
  induction a as [|z a IH]; intros pre Heq.
  - rewrite string_app_nil_l in Heq. subst name.
    by rewrite contains_char_app, contains_char_here, orb_true_r in Hfree.
  - rewrite string_app_cons in Heq. destruct pre as [|y pre].
    + rewrite string_app_nil_l in Heq. injection Heq as _ Heq.
      by apply string_app_eq_nil in Heq as [_ ?].
    + rewrite string_app_cons in Heq. injection Heq as _ Heq.
      by apply IH with pre.
Qed.

Lemma not_startswith_char (c : ascii) (s : string) :
  contains_char c s = false -> Py.startswith s (String c "") = false.
Proof.
  intros Hfree. apply not_true_is_false. intros [rest ->]%startswith_spec.
  by rewrite string_app_cons, contains_char_here in Hfree.
Qed.

Lemma split_char_sep (c : ascii) (s : string) :
  Py.split_char c (String c s) = "" :: Py.split_char c s.
Proof. cbn [Py.split_char]. by rewrite Ascii.eqb_refl. Qed.

Lemma split_char_nonempty (c : ascii) (s : string) :
  exists piece rest, Py.split_char c s = piece :: rest.
Proof.
  induction s as [|x s (piece & rest & IH)]; cbn [Py.split_char]; [by eexists _, _ |].
  destruct (Ascii.eqb x c); [by eexists _, _ |].
  rewrite IH. by eexists _, _.
Qed.

(** The first piece of a split is what precedes the first separator. *)
Lemma split_char_first (c : ascii) (a tail : string) :
  contains_char c a = false ->
  tail = "" \/ (exists rest, tail = String c rest) ->
  exists pieces, Py.split_char c (a +:+ tail) = a :: pieces.
Proof.
  intros Hfree Htail. induction a as [|x a IH].
  - rewrite string_app_nil_l. destruct Htail as [-> | [rest ->]].
    + by exists [].
    + rewrite split_char_sep. by eexists.
  - cbn [contains_char] in Hfree. apply orb_false_elim in Hfree as [Hx Hfree].
    destruct (IH Hfree) as [pieces Hsplit].
    rewrite string_app_cons. cbn [Py.split_char]. rewrite Hx, Hsplit.
    by eexists.
Qed.

(** ** [relative_to_spp] and [current_package_name]: what they return *)

Lemma join2_starts_with_slash (path b tail : string) :
  path = String "/" tail -> exists tail', OsPath.join2 path b = String "/" tail'.
Proof.
  intros ->. unfold OsPath.join2.
  destruct (Py.startswith b "/") eqn:Hb.
  - apply startswith_spec in Hb as [rest ->]. by eexists.
  - destruct (negb _ || _); rewrite string_app_cons; by eexists.
Qed.

Lemma join2_endswith (path b suf : string) :
  Py.endswith b suf = true -> Py.endswith (OsPath.join2 path b) suf = true.
Proof.
  intros Hb. unfold OsPath.join2.
  destruct (Py.startswith b "/"); [exact Hb |].
  destruct (negb _ || _); repeat apply endswith_app; exact Hb.
Qed.

(** [os.path.join('/', name, rest)] for a plain entry name and a relative
    remainder. *)
Lemma join_symlink_name (name rest : string) :
  contains_char "/" name = false ->
  name <> "" ->
  Py.startswith rest "/" = false ->
  OsPath.join "/" [name; rest] = String "/" (name +:+ String "/" rest).
Proof.
  intros Hfree Hne Hrest. unfold OsPath.join. cbn [foldl].
  assert (Hfirst : OsPath.join2 "/" name = "/" +:+ name).
  { unfold OsPath.join2. by rewrite (not_startswith_char "/" name Hfree). }
  rewrite Hfirst. unfold OsPath.join2. rewrite Hrest.
  rewrite (not_endswith_char "/" "/" name Hfree Hne).
  cbn [Py.str_truthy String.append negb orb].
  by rewrite string_app_assoc.
Qed.

Lemma first_some_skip {A B : Type} (f : A -> option B) (before after : list A)
    (x : A) :
  Forall (fun a => f a = None) before ->
  first_some f (before ++ x :: after)
  = match f x with
    | Some y => Some y
    | None => first_some f after
    end.
Proof.
  induction 1 as [|a before Ha _ IH]; [reflexivity |].
  cbn [app first_some]. by rewrite Ha.
Qed.

(** What [relative_to_spp] returns for a path directly under the location it
    compares with. *)
Lemma relative_to_spp_direct (h : Host) (x : string) :
  relative_to_spp h (resolved_packages_path h +:+ String (os_sep h) x)
  = Some (String (os_sep h) x).
Proof.
  unfold relative_to_spp, resolved_packages_path, os_sep.
  destruct (is_windows h).
  - unfold relative_to_spp_windows. cbn [first_some].
    assert (Hstart : Py.startswith (packages_path h +:+ String OsPath.nt_sep x)
                       (packages_path h +:+ String OsPath.nt_sep "") = true).
    { apply startswith_spec. exists x. by rewrite string_app_assoc. }
    by rewrite Hstart, slice_from_app.
  - unfold relative_to_spp_posix. cbn zeta.
    assert (Hstart : Py.startswith
                       (realpath h (packages_path h) +:+ String OsPath.posix_sep x)
                       (realpath h (packages_path h) +:+ "/") = true).
    { apply startswith_spec. exists x. by rewrite string_app_assoc. }
    by rewrite Hstart, slice_from_app.
Qed.

(** Whatever [relative_to_spp] returns starts with [os.sep]. *)
Lemma relative_to_spp_sep (h : Host) (path r : string) :
  relative_to_spp h path = Some r -> exists tail, r = String (os_sep h) tail.
Proof.
  unfold relative_to_spp, os_sep. destruct (is_windows h).
  - unfold relative_to_spp_windows. cbn zeta.
    intros (p & _ & (sp & _ & Hif)%first_some_Some)%first_some_Some.
    destruct (Py.startswith p (sp +:+ String OsPath.nt_sep "")) eqn:Hstart;
      [| discriminate].
    injection Hif as <-. apply startswith_spec in Hstart as [rest ->].
    exists rest. by rewrite string_app_assoc, slice_from_app.
  - unfold relative_to_spp_posix. cbn zeta.
    destruct (Py.startswith path (realpath h (packages_path h) +:+ "/")) eqn:Hstart.
    + intros [= <-]. apply startswith_spec in Hstart as [rest ->].
      exists rest. by rewrite string_app_assoc, slice_from_app.
    + intros (name & _ & Hvia)%first_some_Some. revert Hvia.
      unfold via_symlink. cbn zeta.
      destruct (negb (islink h _ && isdir h _)); [discriminate |].
      destruct (Py.startswith path (readlink h _ +:+ "/")); [| discriminate].
      intros [= <-]. unfold OsPath.join. cbn [foldl].
      destruct (join2_starts_with_slash "/" name "" eq_refl) as [tail Htail].
      by apply join2_starts_with_slash with tail.
Qed.

(** The second piece of a split exists when the string starts with the
    separator. *)
Lemma split_char_second (c : ascii) (tail : string) :
  exists pkg, Py.split_char c (String c tail) !! 1 = Some pkg.
Proof.
  rewrite split_char_sep.
  destruct (split_char_nonempty c tail) as (piece & rest & ->). by exists piece.
Qed.

Lemma current_package_name_returns (h : Host) (win : Window) :
  exists detected, current_package_name h win = inr detected.
Proof.
  unfold current_package_name.
  destruct (active_view win ≫= file_name) as [name|]; [| by eexists].
  destruct (Py.str_truthy name); [| by eexists].
  destruct (relative_to_spp h name) as [file_path|] eqn:Hrel; [| by eexists].
  destruct (Py.str_truthy file_path && Py.endswith file_path ".py");
    [| by eexists].
  apply relative_to_spp_sep in Hrel as [tail ->].
  destruct (split_char_second (os_sep h) tail) as [pkg ->]. by eexists.
Qed.

Section PackageNames.

Variable h : Host.

(** X6. Whatever [relative_to_spp] returns starts with [os.sep]; hence
    [file_path.split(os.sep)[1]] always exists and the property
    [current_package_name] never raises. *)
Theorem current_package_name_never_raises (win : Window) :
  (forall path r, relative_to_spp h path = Some r ->
                  exists tail, r = String (os_sep h) tail)
  /\ exists detected, current_package_name h win = inr detected.
Proof.
  split; [apply relative_to_spp_sep | apply current_package_name_returns].
Qed.

(** X7. What the relative path is.  On Windows some variant [p] of the path
    is some variant [sp] of the packages path followed by the result.  On
    Linux and macOS either the path is the real packages path followed by the
    result, or the path is the [readlink] target of a symlinked directory
    entry [name], a slash and a remainder, and the result is
    [os.path.join('/', name, remainder)]. *)
Theorem relative_to_spp_result (path r : string) :
  relative_to_spp h path = Some r ->
  if is_windows h then
    exists p sp,
      p ∈ [path; casedpath h (realpath h path)]
      /\ sp ∈ [packages_path h; casedpath h (realpath h (packages_path h))]
      /\ p = sp +:+ r
  else
    path = realpath h (packages_path h) +:+ r
    \/ exists name rest,
         symlinked_package_dir h (realpath h (packages_path h)) name
         /\ path = readlink h (OsPath.join (realpath h (packages_path h)) [name])
                   +:+ "/" +:+ rest
         /\ r = OsPath.join "/" [name; rest].
Proof.
  unfold relative_to_spp. destruct (is_windows h).
  - unfold relative_to_spp_windows. cbn zeta.
    intros (p & Hp & (sp & Hsp & Hif)%first_some_Some)%first_some_Some.
    destruct (Py.startswith p (sp +:+ String OsPath.nt_sep "")) eqn:Hstart;
      [| discriminate].
    injection Hif as <-. exists p, sp. split; [exact Hp |]. split; [exact Hsp |].
    apply startswith_spec in Hstart as [rest ->].
    by rewrite !string_app_assoc, slice_from_app.
  - unfold relative_to_spp_posix. cbn zeta.
    destruct (Py.startswith path (realpath h (packages_path h) +:+ "/")) eqn:Hstart.
    + intros [= <-]. left. apply startswith_spec in Hstart as [rest ->].
      by rewrite !string_app_assoc, slice_from_app.
    + intros (name & Hin & Hvia)%first_some_Some. right. revert Hvia.
      unfold via_symlink, symlinked_package_dir. cbn zeta.
      destruct (islink h _) eqn:Hlink; [| discriminate].
      destruct (isdir h _) eqn:Hdir; [| discriminate]. cbn [andb negb].
      destruct (Py.startswith path (readlink h _ +:+ "/")) eqn:Htarget;
        [| discriminate].
      intros [= <-]. apply startswith_spec in Htarget as [rest ->].
      exists name, rest. rewrite slice_from_app.
      split; [done |]. split; [by rewrite string_app_assoc | reflexivity].
Qed.

(** X8. The package of a file under the packages directory is the first
    component below it: when the active view shows
    [<packages>/<pkg>/...] (or [<packages>/<pkg>] itself), with [<packages>]
    the location the code compares with, [pkg] free of separators and the
    relative path ending in [.py], [current_package_name] is [pkg], whatever
    the window folders are. *)
Theorem package_of_file_under_packages (win : Window) (pkg tail : string) :
  active_view win ≫= file_name
  = Some (resolved_packages_path h +:+ String (os_sep h) (pkg +:+ tail)) ->
  contains_char (os_sep h) pkg = false ->
  tail = "" \/ (exists rest, tail = String (os_sep h) rest) ->
  Py.endswith (String (os_sep h) (pkg +:+ tail)) ".py" = true ->
  current_package_name h win = inr (Some pkg).
Proof.
  intros Hview Hfree Htail Hpy. unfold current_package_name.
  rewrite Hview, relative_to_spp_direct, Hpy.
  assert (Htruthy : Py.str_truthy
            (resolved_packages_path h +:+ String (os_sep h) (pkg +:+ tail)) = true).
  { by destruct (resolved_packages_path h). }
  rewrite Htruthy. cbn [Py.str_truthy andb].
  rewrite split_char_sep.
  destruct (split_char_first (os_sep h) pkg tail Hfree Htail) as [pieces ->].
  reflexivity.
Qed.

(** X9. On Linux and macOS a file opened through the target of a symlinked
    package directory belongs to the package named by the symlink: when the
    path is not under the real packages path, [name] is the first directory
    entry whose symlink target contains it, and the remainder is relative
    and ends in [.py], [current_package_name] is [name]. *)
Theorem package_of_file_under_symlink (win : Window) (name rest : string)
    (before after : list string) :
  let spp := realpath h (packages_path h) in
  let path := readlink h (OsPath.join spp [name]) +:+ "/" +:+ rest in
  is_windows h = false ->
  active_view win ≫= file_name = Some path ->
  Py.startswith path (spp +:+ "/") = false ->
  listdir h spp = before ++ name :: after ->
  Forall (fun entry => via_symlink h spp path entry = None) before ->
  islink h (OsPath.join spp [name]) = true ->
  isdir h (OsPath.join spp [name]) = true ->
  contains_char "/" name = false ->
  name <> "" ->
  Py.startswith rest "/" = false ->
  Py.endswith rest ".py" = true ->
  relative_to_spp h path = Some (String "/" (name +:+ String "/" rest))
  /\ current_package_name h win = inr (Some name).
Proof.
  intros spp path Hposix Hview Hdirect Hdir Hbefore Hlink Hisdir Hfree Hne
    Hrest Hpy.
  assert (Hrel : relative_to_spp h path
                 = Some (String "/" (name +:+ String "/" rest))).
  { unfold relative_to_spp. rewrite Hposix. unfold relative_to_spp_posix.
    fold spp. cbn zeta. rewrite Hdirect, Hdir.
    rewrite (first_some_skip _ _ _ _ Hbefore).
    unfold via_symlink. rewrite Hlink, Hisdir. cbn [andb negb]. cbn zeta.
    assert (Hstart : Py.startswith path
                       (readlink h (OsPath.join spp [name]) +:+ "/") = true).
    { apply startswith_spec. exists rest. unfold path.
      by rewrite string_app_assoc. }
    rewrite Hstart.
    replace (Py.slice_from
               (String.length (readlink h (OsPath.join spp [name]) +:+ "/")) path)
      with rest
      by (unfold path; by rewrite <- string_app_assoc, slice_from_app).
    by rewrite (join_symlink_name name rest Hfree Hne Hrest). }
  split; [exact Hrel |].
  unfold current_package_name. rewrite Hview, Hrel.
  assert (Htruthy : Py.str_truthy path = true).
  { unfold path. by destruct (readlink h (OsPath.join spp [name])). }
  rewrite Htruthy. cbn [Py.str_truthy andb].
  assert (Hends : Py.endswith (String "/" (name +:+ String "/" rest)) ".py" = true).
  { replace (String "/" (name +:+ String "/" rest))
      with ((String "/" name +:+ "/") +:+ rest)
      by (by rewrite string_app_assoc).
    by apply endswith_app. }
  rewrite Hends.
  assert (Hsep : os_sep h = "/"%char) by (unfold os_sep; by rewrite Hposix).
  rewrite Hsep, split_char_sep.
  destruct (split_char_first "/" name (String "/" rest) Hfree) as [pieces ->];
    [right; by eexists | reflexivity].
Qed.

(** X10. On Linux and macOS, a [.py] file that [relative_to_spp] recognises
    and that the active view shows always yields a package: [run] called
    without a name (as the reload-on-save command does) starts the worker
    thread instead of printing that no package can be detected. *)
Theorem saved_file_yields_package (w : World) (name : string) :
  is_windows h = false ->
  active_view (w_window w) ≫= file_name = Some name ->
  Py.endswith name ".py" = true ->
  relative_to_spp h name <> None ->
  exists pkg,
    current_package_name h (w_window w) = inr (Some pkg)
    /\ run h None w = (add_thread (worker_thread pkg) w, inr ()).
Proof.
  intros Hposix Hview Hpy Hrel.
  assert (Hdetect : exists pkg, current_package_name h (w_window w) = inr (Some pkg)).
  { unfold current_package_name. rewrite Hview.
    rewrite (endswith_truthy name ".py" eq_refl Hpy).
    destruct (relative_to_spp h name) as [file_path|] eqn:Hfp; [| done].
    rewrite (relative_to_spp_truthy h name file_path Hfp). cbn [andb].
    assert (Hends : Py.endswith file_path ".py" = true).
    { revert Hfp. unfold relative_to_spp. rewrite Hposix.
      unfold relative_to_spp_posix. cbn zeta.
      destruct (Py.startswith name (realpath h (packages_path h) +:+ "/"))
        eqn:Hstart.
      - intros [= <-]. apply startswith_spec in Hstart as [x Hname].
        rewrite string_app_assoc in Hname. subst name.
        rewrite slice_from_app. apply (endswith_app "/" x).
        by apply endswith_after_char with "/"%char (realpath h (packages_path h)).
      - intros (entry & _ & Hvia)%first_some_Some. revert Hvia.
        unfold via_symlink. cbn zeta.
        destruct (negb (islink h _ && isdir h _)); [discriminate |].
        destruct (Py.startswith name (readlink h _ +:+ "/")) eqn:Htarget;
          [| discriminate].
        intros [= <-]. apply startswith_spec in Htarget as [x Hname].
        set (target := readlink h _) in *.
        assert (Hslice : Py.slice_from (String.length (target +:+ "/")) name = x)
          by (rewrite Hname; apply slice_from_app).
        rewrite Hslice. unfold OsPath.join. cbn [foldl]. apply join2_endswith.
        rewrite string_app_assoc in Hname. rewrite Hname in Hpy.
        by apply endswith_after_char with "/"%char target. }
    rewrite Hends.
    apply relative_to_spp_sep in Hfp as [tail ->].
    destruct (split_char_second (os_sep h) tail) as [pkg ->]. by exists pkg. }
  destruct Hdetect as [pkg Hpkg]. exists pkg. split; [exact Hpkg |].
  unfold run, mbind, M_bind, get_current_package_name.
  rewrite bool_decide_eq_false_2 by discriminate. by rewrite Hpkg.
Qed.

End PackageNames.

(** ** Saving, toggling and prompting *)

Lemma eligible_view_iff (h : Host) (view : View) :
  eligible_viewb h view = true <-> eligible_view h view.
Proof.
  unfold eligible_viewb, eligible_view.
  destruct (is_scratch view); cbn [orb negb andb];
    [split; [discriminate | by intros [? _]] |].
  destruct (Py.truthy (settings_get (view_settings view) "is_widget"));
    cbn [negb andb]; [split; [discriminate | by intros (_ & ? & _)] |].
  destruct (file_name view) as [name|];
    [| split; [discriminate | by intros (_ & _ & ? & ? & _)]].
  destruct (Py.endswith name ".py") eqn:Hpy.
  - rewrite (endswith_truthy name ".py" eq_refl Hpy). cbn [andb].
    rewrite opt_truthy_relative_to_spp. split.
    + intros Hrel. repeat split. by exists name.
    + by intros (_ & _ & n & [= <-] & _ & Hrel).
  - rewrite andb_false_r. cbn [andb]. split; [discriminate |].
    intros (_ & _ & n & [= <-] & Hn & _). congruence.
Qed.

(** The whole effect of [on_post_save]. *)
Lemma on_post_save_result (h : Host) (view : View) (w : World) :
  on_post_save h view w
  = (if eligible_viewb h view
        && Py.truthy (settings_get (w_settings w) "reload_on_save")
     then log reload_command w else w,
     inr ()).
Proof.
  unfold on_post_save, eligible_viewb.
  destruct (is_scratch view || _); cbn [negb andb]; [reflexivity |].
  destruct (file_name view) as [name|]; [| reflexivity].
  destruct (Py.str_truthy name && Py.endswith name ".py"
            && Py.opt_truthy (relative_to_spp h name)); cbn [andb];
    [| reflexivity].
  unfold mbind, M_bind, load_settings.
  by destruct (Py.truthy (settings_get (w_settings w) "reload_on_save")).
Qed.

Lemma on_post_save_events (h : Host) (view : View) (w : World) :
  events_of (on_post_save h view) w
  = if eligible_viewb h view
       && Py.truthy (settings_get (w_settings w) "reload_on_save")
    then [reload_command] else [].
Proof.
  apply events_of_app. rewrite on_post_save_result. cbn [fst].
  destruct (eligible_viewb h view && _); autorewrite with world;
    [reflexivity | by rewrite app_nil_r].
Qed.

(** The whole effect of the toggle command. *)
Lemma toggle_run_result (w : World) :
  toggle_run w
  = (log (EStatusMessage
            (toggle_message
               (negb (Py.truthy (settings_get (w_settings w) "reload_on_save")))))
       {| w_interp := w_interp w; w_locks := w_locks w;
          w_settings :=
            <["reload_on_save" :=
                Py.VBool (negb (Py.truthy
                                  (settings_get (w_settings w) "reload_on_save")))]>
              (w_settings w);
          w_window := w_window w; w_threads := w_threads w; w_log := w_log w |},
     inr ()).
Proof. reflexivity. Qed.

Lemma settings_get_insert (s : gmap string Py.value) (k : string) (v : Py.value) :
  settings_get (<[k:=v]> s) k = v.
Proof. unfold settings_get. by rewrite lookup_insert_eq. Qed.

Lemma settings_get_insert_ne (s : gmap string Py.value) (k k' : string)
    (v : Py.value) :
  k <> k' -> settings_get (<[k:=v]> s) k' = settings_get s k'.
Proof. intros Hne. unfold settings_get. by rewrite lookup_insert_ne. Qed.

Section SavingAndPrompting.

Variable h : Host.
Variable reload_package : string -> Py.value -> Interp -> Interp * option Py.exc.

(** X12. The toggle command negates the truth value of [reload_on_save] and
    stores it as a boolean (an absent setting counts as off and becomes
    [True]); the status line says [on] exactly when the new value is true;
    every other setting, the locks, the interpreter and the threads are
    untouched. *)
Theorem toggle_run_flips (w : World) :
  let old := Py.truthy (settings_get (w_settings w) "reload_on_save") in
  let w' := (toggle_run w).1 in
  (toggle_run w).2 = inr ()
  /\ settings_get (w_settings w') "reload_on_save" = Py.VBool (negb old)
  /\ (forall key, key <> "reload_on_save" ->
        settings_get (w_settings w') key = settings_get (w_settings w) key)
  /\ events_of toggle_run w = [EStatusMessage (toggle_message (negb old))]
  /\ w_interp w' = w_interp w
  /\ w_locks w' = w_locks w
  /\ w_threads w' = w_threads w.
Proof.
  cbn zeta. rewrite (events_of_app toggle_run w
    [EStatusMessage
       (toggle_message
          (negb (Py.truthy (settings_get (w_settings w) "reload_on_save"))))]);
    rewrite toggle_run_result; cbn [fst snd]; autorewrite with world;
    cbn [w_interp w_locks w_settings w_threads w_log]; [| reflexivity].
  split; [reflexivity |]. split; [apply settings_get_insert |].
  split; [intros key Hne; by apply settings_get_insert_ne |].
  by repeat split.
Qed.

(** X13. Toggling twice brings the truth value of [reload_on_save] back: the
    settings are the original ones with [reload_on_save] set to its former
    truth value as a boolean, so when it held a boolean the settings are
    exactly restored; the two status lines announce the negated and then the
    original state. *)
Theorem toggle_run_twice (w : World) :
  let old := Py.truthy (settings_get (w_settings w) "reload_on_save") in
  let w'' := (toggle_run (toggle_run w).1).1 in
  w_settings w'' = <["reload_on_save" := Py.VBool old]> (w_settings w)
  /\ (w_settings w !! "reload_on_save" = Some (Py.VBool old) ->
      w_settings w'' = w_settings w)
  /\ w_log w''
     = w_log w ++ [EStatusMessage (toggle_message (negb old));
                   EStatusMessage (toggle_message old)].
Proof.
  cbn zeta. rewrite (toggle_run_result w). cbn [fst].
  rewrite toggle_run_result. cbn [fst]. autorewrite with world.
  cbn [w_settings w_log]. rewrite settings_get_insert. cbn [Py.truthy].
  rewrite negb_involutive, insert_insert_eq.
  split; [reflexivity |]. split; [intros Hold; by apply insert_id |].
  by rewrite <- app_assoc.
Qed.

(** X14. Toggling decides what the next save does: after the toggle command,
    saving a view triggers the reload command exactly when the view is
    eligible and reload-on-save was off before the toggle. *)
Theorem toggle_then_save (view : View) (w : World) :
  reload_command ∈ events_of (on_post_save h view) (toggle_run w).1
  <-> eligible_view h view
      /\ Py.truthy (settings_get (w_settings w) "reload_on_save") = false.
Proof.
  rewrite on_post_save_events, toggle_run_result. cbn [fst].
  autorewrite with world. cbn [w_settings]. rewrite settings_get_insert.
  cbn [Py.truthy]. rewrite <- eligible_view_iff.
  destruct (eligible_viewb h view),
    (Py.truthy (settings_get (w_settings w) "reload_on_save"));
    cbn [negb andb]; rewrite ?list_elem_of_singleton, ?elem_of_nil;
    intuition (try discriminate; try congruence).
Qed.

(** X15. Asked to prompt, [run] never raises and starts nothing: it shows the
    input panel [Package:] pre-filled with the detected package name, or
    with the empty string when none is detected, selects the text, and
    leaves threads, locks and interpreter as they were. *)
Theorem run_prompt (w : World) :
  let w' := (run h (Some "<prompt>") w).1 in
  exists detected,
    current_package_name h (w_window w) = inr detected
    /\ (run h (Some "<prompt>") w).2 = inr ()
    /\ events_of (run h (Some "<prompt>")) w
       = [EShowInputPanel "Package:" (default "" detected);
          EViewCommand "select_all"]
    /\ w_threads w' = w_threads w
    /\ w_locks w' = w_locks w
    /\ w_interp w' = w_interp w.
Proof.
  cbn zeta. destruct (current_package_name_returns h (w_window w))
    as [detected Hdet].
  exists detected. split; [exact Hdet |].
  assert (Hrun : run h (Some "<prompt>") w
    = (log (EViewCommand "select_all")
         (log (EShowInputPanel "Package:" (default "" detected)) w), inr ())).
  { unfold run. rewrite bool_decide_eq_true_2 by reflexivity.
    unfold prompt_package, mbind, M_bind, get_current_package_name, emit.
    rewrite Hdet. by destruct detected as [[|c s]|]. }
  rewrite (events_of_app _ w
    [EShowInputPanel "Package:" (default "" detected); EViewCommand "select_all"]);
    rewrite Hrun; cbn [fst snd]; autorewrite with world;
    [by repeat split | by rewrite <- app_assoc].
Qed.

(** X16. Confirming the input panel starts the worker thread for the text
    typed, whatever it is (the empty string included), except for the text
    [<prompt>] itself, which prompts again and starts nothing. *)
Theorem on_done_starts_thread (x : string) (w : World) :
  (x <> "<prompt>" ->
   on_done h x w = (add_thread (worker_thread x) w, inr ()))
  /\ (w_threads (on_done h x w).1 = w_threads w ++ [worker_thread x]
      <-> x <> "<prompt>").
Proof.
  assert (Hstart : x <> "<prompt>" ->
                   on_done h x w = (add_thread (worker_thread x) w, inr ())).
  { intros Hne. unfold on_done, run.
    rewrite bool_decide_eq_false_2 by congruence. reflexivity. }
  split; [exact Hstart |]. split.
  - intros Hthreads ->.
    destruct (current_package_name_returns h (w_window w)) as [detected Hdet].
    revert Hthreads. unfold on_done, run.
    rewrite bool_decide_eq_true_2 by reflexivity.
    unfold prompt_package, mbind, M_bind, get_current_package_name, emit.
    rewrite Hdet. cbn [fst]. autorewrite with world.
    intros Hthreads. apply (f_equal length) in Hthreads.
    rewrite length_app in Hthreads. cbn in Hthreads. lia.
  - intros Hne. by rewrite (Hstart Hne).
Qed.

(** X17. From command to reload: the thread that [run] starts for a given
    package name, once it executes with the lock free, calls
    [reload_package] with that very name and the [verbose] setting. *)
Theorem run_then_thread_reloads (name : string) (w : World) (l : lock_id) :
  name <> "<prompt>" ->
  reload_lock (w_interp w) = Some l ->
  held (w_locks w) l = false ->
  let w' := (run h (Some name) w).1 in
  exists t,
    last (w_threads w') = Some t
    /\ EReloadPackage name (settings_get (w_settings w) "verbose")
       ∈ events_of (thread_run reload_package t) w'.
Proof.
  intros Hne Hl Hfree. cbn zeta.
  assert (Hrun : run h (Some name) w = (add_thread (worker_thread name) w, inr ())).
  { unfold run. rewrite bool_decide_eq_false_2 by congruence. reflexivity. }
  rewrite Hrun. cbn [fst]. exists (worker_thread name).
  split; [cbn [add_thread w_threads]; apply last_snoc |].
  unfold thread_run, worker_thread. cbn [thread_target thread_args].
  set (w' := add_thread _ w).
  destruct (reload_package name (settings_get (w_settings w') "verbose")
              (w_interp w')) as [i r] eqn:Hrp.
  rewrite (run_async_acquired_events reload_package name w' l i r Hl Hfree Hrp).
  unfold acquired_events. rewrite !elem_of_app. right. right. left.
  apply list_elem_of_here.
Qed.

End SavingAndPrompting.

(** ** The further properties on the sample hosts and worlds *)

Lemma run_async_unbound_lock_witness :
  reload_lock (w_interp unimported_world) = None
  /\ run_async reload_ok "demo" unimported_world
     = (unimported_world, inl (Py.NameError "reload_lock")).
Proof.
  split; [reflexivity |].
  apply (run_async_unbound_lock reload_ok "demo" unimported_world). reflexivity.
Defined.

Lemma run_async_calls_reload_once_witness :
  reload_lock (w_interp demo_world) = Some 0
  /\ held (w_locks demo_world) 0 = false
  /\ filter (fun e => is_reload_call e = true)
       (events_of (run_async (reload_raising true) "demo") demo_world)
     = [EReloadPackage "demo" Py.VNone].
Proof.
  split; [reflexivity |]. split; [vm_compute; reflexivity |].
  apply (run_async_calls_reload_once (reload_raising true) "demo" demo_world 0
           {| sys_modules := delete "demo.util" (sys_modules (w_interp demo_world));
              reload_lock := Some 5 |}
           (Some (Py.Raised true 7)));
    vm_compute; reflexivity.
Defined.

Lemma run_async_console_commands_witness :
  reload_lock (w_interp demo_world) = Some 0
  /\ held (w_locks demo_world) 0 = false
  /\ show_console ∈ events_of (run_async reload_ok "demo") demo_world.
Proof.
  split; [reflexivity |]. split; [vm_compute; reflexivity |].
  apply (run_async_console_commands reload_ok "demo" demo_world 0
           (w_interp demo_world) None);
    [reflexivity | vm_compute; reflexivity | reflexivity |].
  left. split; [discriminate | vm_compute; reflexivity].
Defined.

Lemma run_async_raises_iff_witness :
  reload_lock (w_interp demo_world) = Some 0
  /\ (run_async (reload_raising false) "demo" demo_world).2
     = inl (Py.Raised false 7).
Proof.
  split; [reflexivity |].
  apply (run_async_raises_iff (reload_raising false) "demo" demo_world 0
           (Py.Raised false 7)); [reflexivity |].
  split; [vm_compute; reflexivity |]. eexists. reflexivity.
Defined.

Lemma run_async_again_not_busy_witness :
  reload_lock (w_interp demo_world) = Some 0
  /\ held (w_locks demo_world) 0 = false
  /\ exists rest,
       events_of (run_async reload_ok "other")
         (run_async reload_ok "demo" demo_world).1
       = EAcquire 0 true :: EProgressStart "Reloading other" :: rest.
Proof.
  split; [reflexivity |]. split; [vm_compute; reflexivity |].
  apply (run_async_again_not_busy reload_ok "demo" "other" demo_world 0
           (w_interp demo_world) None);
    vm_compute; reflexivity.
Defined.

Lemma first_import_lock_is_free_witness :
  reload_lock (w_interp unimported_world) = None
  /\ exists l,
       reload_lock (w_interp (exec_module_body unimported_world)) = Some l
       /\ w_locks unimported_world !! l = None.
Proof.
  split; [reflexivity |].
  destruct (first_import_lock_is_free reload_ok "demo" unimported_world eq_refl)
    as (l & Hbound & Hnew & _).
  exists l. split; [exact Hbound | exact Hnew].
Defined.

Lemma relative_to_spp_result_witness :
  relative_to_spp linux_host "/src/linked/sub/a.py" = Some "/Linked/sub/a.py"
  /\ ("/src/linked/sub/a.py" = realpath linux_host (packages_path linux_host)
                               +:+ "/Linked/sub/a.py"
      \/ exists name rest,
           symlinked_package_dir linux_host
             (realpath linux_host (packages_path linux_host)) name
           /\ "/src/linked/sub/a.py"
              = readlink linux_host
                  (OsPath.join (realpath linux_host (packages_path linux_host))
                     [name])
                +:+ "/" +:+ rest
           /\ "/Linked/sub/a.py" = OsPath.join "/" [name; rest]).
Proof.
  split; [reflexivity |].
  apply (relative_to_spp_result linux_host "/src/linked/sub/a.py"
           "/Linked/sub/a.py"). reflexivity.
Defined.

Lemma package_of_file_under_packages_witness :
  contains_char (os_sep linux_host) "Plain" = false
  /\ Py.endswith (String (os_sep linux_host) ("Plain" +:+ "/sub/a.py")) ".py" = true
  /\ current_package_name linux_host (window_on "/st/Packages/Plain/sub/a.py")
     = inr (Some "Plain").
Proof.
  split; [reflexivity |]. split; [reflexivity |].
  apply (package_of_file_under_packages linux_host
           (window_on "/st/Packages/Plain/sub/a.py") "Plain" "/sub/a.py");
    [reflexivity | reflexivity | right; by exists "sub/a.py" | reflexivity].
Defined.

Lemma package_of_file_under_symlink_witness :
  listdir linux_host (realpath linux_host (packages_path linux_host))
  = ["Plain"] ++ "Linked" :: []
  /\ Py.startswith "/src/linked/sub/a.py" "/st/Packages/" = false
  /\ current_package_name linux_host (window_on "/src/linked/sub/a.py")
     = inr (Some "Linked").
Proof.
  split; [reflexivity |]. split; [reflexivity |].
  apply (package_of_file_under_symlink linux_host
           (window_on "/src/linked/sub/a.py") "Linked" "sub/a.py" ["Plain"] []);
    try reflexivity; [repeat constructor | discriminate].
Defined.

Lemma saved_file_yields_package_witness :
  is_windows linux_host = false
  /\ Py.endswith "/src/linked/a.py" ".py" = true
  /\ relative_to_spp linux_host "/src/linked/a.py" <> None
  /\ exists pkg,
       current_package_name linux_host (window_on "/src/linked/a.py")
       = inr (Some pkg).
Proof.
  split; [reflexivity |]. split; [reflexivity |]. split; [discriminate |].
  destruct (saved_file_yields_package linux_host
              (set_window (window_on "/src/linked/a.py") demo_world)
              "/src/linked/a.py")
    as (pkg & Hpkg & _); [reflexivity | reflexivity | reflexivity | discriminate |].
  exists pkg. exact Hpkg.
Defined.

Lemma toggle_run_twice_witness :
  w_settings demo_world !! "reload_on_save"
  = Some (Py.VBool (Py.truthy (settings_get (w_settings demo_world) "reload_on_save")))
  /\ w_settings (toggle_run (toggle_run demo_world).1).1 = w_settings demo_world.
Proof.
  split; [vm_compute; reflexivity |].
  apply (toggle_run_twice demo_world). vm_compute. reflexivity.
Defined.

Lemma on_done_starts_thread_witness :
  "" <> "<prompt>"
  /\ on_done linux_host "" demo_world
     = (add_thread (worker_thread "") demo_world, inr ()).
Proof.
  split; [discriminate |].
  apply (on_done_starts_thread linux_host "" demo_world). discriminate.
Defined.

Lemma run_then_thread_reloads_witness :
  "demo" <> "<prompt>"
  /\ reload_lock (w_interp demo_world) = Some 0
  /\ held (w_locks demo_world) 0 = false
  /\ exists t,
       last (w_threads (run linux_host (Some "demo") demo_world).1) = Some t
       /\ EReloadPackage "demo" (settings_get (w_settings demo_world) "verbose")
          ∈ events_of (thread_run reload_ok t)
              (run linux_host (Some "demo") demo_world).1.
Proof.
  split; [discriminate |]. split; [reflexivity |]. split; [vm_compute; reflexivity |].
  apply (run_then_thread_reloads linux_host reload_ok "demo" demo_world 0);
    [discriminate | reflexivity | vm_compute; reflexivity].
Defined.

(** ** Case-normalised paths and window folders *)

Section CasedPathsAndFolders.

Variable h : Host.

(** [casedpath] falls back on the path it was given when [glob] finds
    nothing, and also when the first name found is empty; so for a non-empty
    path it never returns the empty string. *)
Lemma casedpath_fallback (path : string) :
  (glob_cased h path = [] -> casedpath h path = path)
  /\ (forall others, glob_cased h path = "" :: others -> casedpath h path = path)
  /\ (Py.str_truthy path = true -> Py.str_truthy (casedpath h path) = true).
Proof.
  unfold casedpath. split; [by intros -> |]. split; [by intros others -> |].
  intros Hpath. destruct (glob_cased h path) as [|r0 rest]; [exact Hpath |].
  destruct (Py.str_truthy r0) eqn:Hr0; [exact Hr0 | exact Hpath].
Qed.

(** X18. On Windows a path written in another casing is recognised through
    the file system's casing: when the path as given is under neither form of
    the packages path, but its case-normalised real path is
    [<packages>\x], the result is [\x], in the stored casing. *)
Theorem relative_to_spp_windows_cased (path x : string) :
  let sep := String OsPath.nt_sep "" in
  is_windows h = true ->
  Py.startswith path (packages_path h +:+ sep) = false ->
  Py.startswith path (casedpath h (realpath h (packages_path h)) +:+ sep) = false ->
  casedpath h (realpath h path) = packages_path h +:+ String OsPath.nt_sep x ->
  relative_to_spp h path = Some (String OsPath.nt_sep x).
Proof.
  intros sep Hwin Hraw Hreal Hcased.
  unfold relative_to_spp. rewrite Hwin. unfold relative_to_spp_windows.
  cbn [first_some]. fold sep. rewrite Hraw, Hreal, Hcased.
  assert (Hstart : Py.startswith (packages_path h +:+ String OsPath.nt_sep x)
                     (packages_path h +:+ sep) = true).
  { apply startswith_spec. exists x. unfold sep. by rewrite string_app_assoc. }
  by rewrite Hstart, slice_from_app.
Qed.

(** X19. Without a usable file in the active view, the first window folder
    alone decides: the package is [os.path.basename] of its relative path
    when [relative_to_spp] recognises it, and none otherwise, whatever the
    other folders are (a later folder under the packages path is never
    consulted). *)
Theorem first_folder_decides (win : Window) (folder : string)
    (others : list string) :
  (active_view win ≫= file_name) ≫= relative_to_spp h = None ->
  folders win = folder :: others ->
  current_package_name h win = inr (basename h <$> relative_to_spp h folder).
Proof.
  intros Hview Hfolders.
  assert (Hpf : package_of_folders h win = basename h <$> relative_to_spp h folder).
  { unfold package_of_folders. rewrite Hfolders.
    destruct (relative_to_spp h folder) as [rel|] eqn:Hrel; [| reflexivity].
    by rewrite (relative_to_spp_truthy h folder rel Hrel). }
  unfold current_package_name.
  destruct (active_view win ≫= file_name) as [name|]; cbn in Hview;
    [| by rewrite Hpf].
  rewrite Hview, Hpf. by destruct (Py.str_truthy name).
Qed.

End CasedPathsAndFolders.

Lemma relative_to_spp_windows_cased_witness :
  is_windows windows_host = true
  /\ casedpath windows_host (realpath windows_host "c:\st\packages\Pkg\a.py")
     = packages_path windows_host +:+ String OsPath.nt_sep "Pkg\a.py"
  /\ relative_to_spp windows_host "c:\st\packages\Pkg\a.py"
     = Some (String OsPath.nt_sep "Pkg\a.py").
Proof.
  split; [reflexivity |]. split; [reflexivity |].
  apply (relative_to_spp_windows_cased windows_host "c:\st\packages\Pkg\a.py"
           "Pkg\a.py"); reflexivity.
Defined.

Lemma first_folder_decides_witness :
  current_package_name linux_host
    {| active_view := None;
       folders := ["/home/u/project"; "/st/Packages/Plain"];
       active_panel := None |}
  = inr None.
Proof.
  apply (first_folder_decides linux_host
           {| active_view := None;
              folders := ["/home/u/project"; "/st/Packages/Plain"];
              active_panel := None |}
           "/home/u/project" ["/st/Packages/Plain"]); reflexivity.
Defined.

Lemma casedpath_fallback_witness :
  Py.str_truthy "c:\st\packages" = true
  /\ casedpath windows_host "c:\st\packages" = "c:\st\packages".
Proof.
  split; [reflexivity |].
  apply (casedpath_fallback windows_host "c:\st\packages"). reflexivity.
Defined.
